(** * Lepen AI relay (optional.py): a shallow embedding and its properties

    The relay is a Flask application that reshapes inbound JSON requests
    into calls of a generative-AI provider and reshapes the answers.  The
    embedding follows optional.py function by function:

    - Python [str] values are lists of Unicode code points, [bytes] values
      are lists of bytes, JSON values are the tree that [json.loads] builds;
    - an expression that can raise is a computation in [result];
    - a request handler threads the process state ([world]: the liveness
      timestamp, the clock and the log of upstream calls) through its body;
    - the runtime library ([json.loads], [bytes.decode], [str()] of an
      exception, [str()] of a JSON value, the float clock) is a parameter of
      the development.

    The keep-alive endpoint, which formats the current time after
    [warm_up()], and the start-up code are left out. *)

From Stdlib Require Import Ascii String.
From Stdlib Require Import List NArith ZArith Bool Lia SpecFloat.
Import ListNotations.

Set Implicit Arguments.
Set Warnings "-register-all".

(** ** Text *)

(** A Python [str]: the sequence of its code points. *)
Definition str := list N.

(** A Python [bytes] object. *)
Definition bytes := list Byte.byte.

(** The [str] of an ASCII literal of the source. *)
Definition py (s : string) : str :=
  map N_of_ascii (list_ascii_of_string s).

(** The same, for literals that hold double quotes: the literal is written
    with an apostrophe wherever the source has a double quote. *)
Definition py_dq (s : string) : str :=
  map (fun c => if N.eqb c 39 then 34%N else c) (py s).

Definition LF : N := 10.

Fixpoint str_eqb (a b : str) : bool :=
  match a, b with
  | [], [] => true
  | x :: a', y :: b' => N.eqb x y && str_eqb a' b'
  | _, _ => false
  end.

(** [strip_prefix p s]: the rest of [s] after its prefix [p], when [s]
    starts with [p]. *)
Fixpoint strip_prefix (p s : str) : option str :=
  match p with
  | [] => Some s
  | x :: p' =>
      match s with
      | [] => None
      | y :: s' => if N.eqb x y then strip_prefix p' s' else None
      end
  end.

(** [s.startswith(p)] *)
Definition startswith (s p : str) : bool :=
  match strip_prefix p s with Some _ => true | None => false end.

(** [s.partition(sep)] at the first occurrence of [sep], [None] when [sep]
    does not occur. *)
Fixpoint break_on (sep s : str) : option (str * str) :=
  match strip_prefix sep s with
  | Some rest => Some ([], rest)
  | None =>
      match s with
      | [] => None
      | c :: s' =>
          match break_on sep s' with
          | Some (a, b) => Some (c :: a, b)
          | None => None
          end
      end
  end.

(** [sub in s] for two strings. *)
Definition contains (sub s : str) : bool :=
  match break_on sub s with Some _ => true | None => false end.

(** [s.split(sep)] for a non-empty [sep]: the pieces between the
    non-overlapping occurrences of [sep], scanned from the left.  The fuel
    bounds the number of separators, which is at most the length of [s]. *)
Fixpoint split_fuel (fuel : nat) (sep s : str) : list str :=
  match fuel with
  | O => [s]
  | S fuel' =>
      match break_on sep s with
      | None => [s]
      | Some (a, b) => a :: split_fuel fuel' sep b
      end
  end.

Definition split (sep s : str) : list str :=
  split_fuel (S (length s)) sep s.

(** [c.isspace()]: the code points that [str.strip()] removes. *)
Definition isspace (c : N) : bool :=
  ((9 <=? c) && (c <=? 13) || (28 <=? c) && (c <=? 32)
   || (c =? 133) || (c =? 160) || (c =? 5760)
   || (8192 <=? c) && (c <=? 8202)
   || (c =? 8232) || (c =? 8233) || (c =? 8239) || (c =? 8287)
   || (c =? 12288))%N.

Fixpoint lstrip (s : str) : str :=
  match s with
  | c :: s' => if isspace c then lstrip s' else s
  | [] => []
  end.

(** [s.strip()] *)
Definition strip (s : str) : str := rev (lstrip (rev (lstrip s))).

(** ** Exceptions *)

Inductive exn : Type :=
| AttributeError
| KeyError
| IndexError
| TypeError
| ValueError
| UnicodeDecodeError
| RaisedBy (library message : str).
  (* an exception of Flask, werkzeug or requests *)

Inductive result (A : Type) : Type :=
| Ok (a : A)
| Raise (e : exn).
Arguments Ok {A} a.
Arguments Raise {A} e.

Definition rbind {A B} (c : result A) (k : A -> result B) : result B :=
  match c with
  | Ok a => k a
  | Raise e => Raise e
  end.

Declare Scope py_scope.
Delimit Scope py_scope with py.
Notation "x <- c ;; k" := (rbind c (fun x => k))
  (at level 61, c at next level, right associativity) : py_scope.
Open Scope py_scope.

(** ** JSON values *)

(** What [json.loads] returns and [json.dumps] / [jsonify] accept.  A dict
    keeps its keys in insertion order; its keys are unique. *)
Inductive json : Type :=
| JNull
| JBool (b : bool)
| JInt (z : Z)
| JFloat (f : spec_float)
| JStr (s : str)
| JArr (l : list json)
| JObj (kvs : list (str * json)).

Fixpoint lookup (k : str) (kvs : list (str * json)) : option json :=
  match kvs with
  | [] => None
  | (k', v) :: rest => if str_eqb k k' then Some v else lookup k rest
  end.

(** [bool(v)] *)
Definition truthy (v : json) : bool :=
  match v with
  | JNull => false
  | JBool b => b
  | JInt z => negb (Z.eqb z 0)
  | JFloat (S754_zero _) => false
  | JFloat _ => true
  | JStr s => match s with [] => false | _ => true end
  | JArr l => match l with [] => false | _ => true end
  | JObj kvs => match kvs with [] => false | _ => true end
  end.

(** [v == lit] for a string literal [lit]. *)
Definition eq_str (v : json) (lit : str) : bool :=
  match v with
  | JStr s => str_eqb s lit
  | _ => false
  end.

(** [v.get(k, default)]: only a dict has the method. *)
Definition py_get (v : json) (k : str) (default : json) : result json :=
  match v with
  | JObj kvs =>
      Ok (match lookup k kvs with Some x => x | None => default end)
  | _ => Raise AttributeError
  end.

(** [v[k]] for a string key [k]. *)
Definition getitem (v : json) (k : str) : result json :=
  match v with
  | JObj kvs =>
      match lookup k kvs with Some x => Ok x | None => Raise KeyError end
  | _ => Raise TypeError
  end.

(** [v[0]].  The keys of a dict that came from JSON are strings, so the key
    [0] is never found. *)
Definition getitem0 (v : json) : result json :=
  match v with
  | JObj _ => Raise KeyError
  | JArr l => match l with x :: _ => Ok x | [] => Raise IndexError end
  | JStr s => match s with c :: _ => Ok (JStr [c]) | [] => Raise IndexError end
  | _ => Raise TypeError
  end.

(** [k in v] for a string [k]. *)
Definition py_in (k : str) (v : json) : result bool :=
  match v with
  | JObj kvs => Ok (match lookup k kvs with Some _ => true | None => false end)
  | JArr l => Ok (existsb (fun x => eq_str x k) l)
  | JStr s => Ok (contains k s)
  | _ => Raise TypeError
  end.

(** [len(v)] *)
Definition py_len (v : json) : result nat :=
  match v with
  | JObj kvs => Ok (length kvs)
  | JArr l => Ok (length l)
  | JStr s => Ok (length s)
  | _ => Raise TypeError
  end.

(** The values that [for x in v] visits: the items of a list, the keys of a
    dict, the characters of a string. *)
Definition py_iter (v : json) : result (list json) :=
  match v with
  | JArr l => Ok l
  | JObj kvs => Ok (map (fun kv => JStr (fst kv)) kvs)
  | JStr s => Ok (map (fun c => JStr [c]) s)
  | _ => Raise TypeError
  end.

(** [a or b] *)
Definition py_or (a b : json) : json := if truthy a then a else b.

(** ** The data-URI pattern *)

(** The regular expressions of the source are sequences of these items:
    [^] ([ReBegin]), a literal character, a capturing group [(set+)] with a
    greedy repetition of a character set, and [$] ([ReEnd]). *)
Inductive re_item : Type :=
| ReBegin
| ReLit (c : N)
| ReGroupPlus (set : N -> bool)
| ReEnd.

(** One or more characters of [set], the longest run first; [k] is the
    rest of the match, given the captured text and the remaining input.
    When [k] fails the engine backtracks to a shorter run. *)
Fixpoint plus_greedy (R : Type) (set : N -> bool) (s acc : str)
    (k : str -> str -> option R) : option R :=
  match s with
  | c :: s' =>
      if set c then
        match plus_greedy set s' (c :: acc) k with
        | Some r => Some r
        | None => k (rev (c :: acc)) s'
        end
      else None
  | [] => None
  end.

(** The backtracking matcher: [pos] is the offset of [s] in the subject,
    [groups] the groups captured so far.  [^] matches at offset 0 only;
    [$] matches at the end of the subject and before a line feed that ends
    the subject. *)
Fixpoint re_run (items : list re_item) (pos : nat) (s : str)
    (groups : list str) : option (list str) :=
  match items with
  | [] => Some groups
  | ReBegin :: r =>
      match pos with O => re_run r pos s groups | S _ => None end
  | ReLit c :: r =>
      match s with
      | c' :: s' => if N.eqb c c' then re_run r (S pos) s' groups else None
      | [] => None
      end
  | ReGroupPlus set :: r =>
      plus_greedy set s []
        (fun g s' => re_run r (pos + length g) s' (groups ++ [g]))
  | ReEnd :: r =>
      match s with
      | [] => re_run r pos s groups
      | [c] => if N.eqb c LF then re_run r pos s groups else None
      | _ :: _ :: _ => None
      end
  end.

(** [re.match(items, s)]: the groups of the match at the start of [s]. *)
Definition re_match (items : list re_item) (s : str) : option (list str) :=
  re_run items 0 s [].

Definition semicolon : N := 59.

(** [r'^data:([^;]+);base64,(.+)$'] *)
Definition data_uri_re : list re_item :=
  [ReBegin] ++ map ReLit (py "data:")
  ++ [ReGroupPlus (fun c => negb (N.eqb c semicolon))]
  ++ map ReLit (py ";base64,")
  ++ [ReGroupPlus (fun c => negb (N.eqb c LF))]
  ++ [ReEnd].

(** [{"inlineData": {"mimeType": match.group(1), "data": match.group(2)}}] *)
Definition inline_data (mime data : str) : json :=
  JObj [(py "inlineData",
         JObj [(py "mimeType", JStr mime); (py "data", JStr data)])].

(** [match.group(1)] and [match.group(2)] of the data-URI pattern on [s]
    (optional.py, lines 109 and 196). *)
Definition match_data_uri (s : str) : option (str * str) :=
  match re_match data_uri_re s with
  | Some [mime; data] => Some (mime, data)
  | _ => None
  end.

(** The image extraction of both endpoints (optional.py, lines 108-116 and
    195-204): [if image and image.startswith('data:')], then the match.
    The result is the image block, if one is attached.  A value that is
    truthy and not a string has no [startswith]. *)
Definition extract_image (image : json) : result (option json) :=
  if truthy image then
    match image with
    | JStr s =>
        if startswith s (py "data:") then
          match match_data_uri s with
          | Some (mime, data) => Ok (Some (inline_data mime data))
          | None => Ok None
          end
        else Ok None
    | _ => Raise AttributeError
    end
  else Ok None.

(** ** Chat: the payload translator (optional.py, lines 100-119) *)

Definition text_part (v : json) : json := JObj [(py "text", v)].

(** The body of the loop for the message [msg] at index [i] of [n]
    messages; [image_data] is the top-level [imageData] of the request. *)
Definition chat_turn (n : nat) (image_data : json) (i : nat) (msg : json)
    : result json :=
  r <- getitem msg (py "role") ;;
  let role := if eq_str r (py "user") then py "user" else py "model" in
  own <- py_get msg (py "imageData") JNull ;;
  let msg_image :=
    py_or own (if Z.eqb (Z.of_nat i) (Z.of_nat n - 1) then image_data
               else JNull) in
  img <- extract_image msg_image ;;
  c <- getitem msg (py "content") ;;
  Ok (JObj [(py "role", JStr role);
            (py "parts",
             JArr (match img with Some b => [b] | None => [] end
                   ++ [text_part c]))]).

(** The loop over [enumerate(messages)], from index [i] on. *)
Fixpoint chat_turns (n : nat) (image_data : json) (i : nat)
    (msgs : list json) : result (list json) :=
  match msgs with
  | [] => Ok []
  | msg :: rest =>
      t <- chat_turn n image_data i msg ;;
      ts <- chat_turns n image_data (S i) rest ;;
      Ok (t :: ts)
  end.

(** [gemini_contents] for the request's [messages] and [imageData].
    [len(messages)] is the number of values the loop visits. *)
Definition gemini_contents (messages image_data : json)
    : result (list json) :=
  msgs <- py_iter messages ;;
  chat_turns (length msgs) image_data 0 msgs.

(** ** Image generation: the payload translator (optional.py, 192-208) *)

(** [parts] and [is_edit] for a prompt already formatted into the two
    instruction texts. *)
Definition image_parts (prompt : str) (image_data : json)
    : result (list json * bool) :=
  img <- extract_image image_data ;;
  match img with
  | Some block =>
      Ok ([block; text_part (JStr (py "Edit this image: " ++ prompt))], true)
  | None =>
      Ok ([text_part (JStr (py "Generate an image: " ++ prompt))], false)
  end.

(** ** Map search: the fenced block (optional.py, lines 350-353) *)

Definition fence : str := py "```".
Definition fence_json : str := py "```json".

(** [l[i]] *)
Definition py_nth (l : list str) (i : nat) : result str :=
  match nth_error l i with
  | Some x => Ok x
  | None => Raise IndexError
  end.

(** The new value of [content] after the two tests for a fenced block. *)
Definition fence_extract (content : str) : result str :=
  if contains fence_json content then
    a <- py_nth (split fence_json content) 1 ;;
    py_nth (split fence a) 0
  else if contains fence content then
    a <- py_nth (split fence content) 1 ;;
    py_nth (split fence a) 0
  else Ok content.

(** ** The process and its environment *)

Inductive http_method : Type := POST | OPTIONS.

(** An inbound request: its method and what [request.json] evaluates to. *)
Record request : Type := {
  method : http_method;
  request_json : result json
}.

(** A [requests.Response]: [ok], what [json()] evaluates to, the lines that
    [iter_lines()] yields and the exception that ends the iteration, if it
    does not end normally. *)
Record http_response : Type := {
  ok : bool;
  response_json : result json;
  iter_lines : list bytes;
  iter_raises : option exn
}.

Inductive post_outcome : Type :=
| PostRaises (e : exn)
| PostReturns (r : http_response).

(** One call of [requests.post(url, json=payload, stream=...)]. *)
Record upstream_call : Type := {
  call_url : str;
  call_payload : json;
  call_stream : bool
}.

(** What a handler returns to Flask. *)
Inductive response : Type :=
| Plain (body : str) (status : Z)
| Json (body : json) (status : Z)
| EventStream (contents : list json) (system_prompt : str).
  (* a [text/event-stream] response whose body is [generate()], closed
     over [gemini_contents] and [system_prompt] *)

Definition status_of (r : response) : Z :=
  match r with
  | Plain _ st => st
  | Json _ st => st
  | EventStream _ _ => 200
  end.

(** One chunk of the outbound event stream: [data: <json>] followed by a
    blank line, or the literal [data: [DONE]]. *)
Inductive sse : Type :=
| SseData (j : json)
| SseDone.

(** [{"choices": [{"delta": {"content": content}}]}] *)
Definition delta_event (content : json) : sse :=
  SseData (JObj [(py "choices",
    JArr [JObj [(py "delta", JObj [(py "content", content)])]])]).

(** [{"error": msg}] *)
Definition error_event (msg : str) : sse :=
  SseData (JObj [(py "error", JStr msg)]).

Definition error_body (msg : str) : json := JObj [(py "error", JStr msg)].

Definition GEMINI_API_URL : str :=
  py "https://generativelanguage.googleapis.com/v1beta/models".

(** The floats of the generation configurations, as binary64 values. *)
Definition float_0_7 : spec_float := S754_finite false 6305039478318694 (-53).
Definition float_0_3 : spec_float := S754_finite false 5404319552844595 (-54).
Definition float_0_2 : spec_float := S754_finite false 7205759403792794 (-55).

Definition chat_system_prompt : str :=
  py "You are Lepen AI, an intelligent assistant. You can help with:
- General conversations and questions
- Web searches (use your knowledge to answer)
- Location and map information
- Weather information
- Code generation and debugging
- Mathematical calculations (format equations properly using LaTeX)

Be helpful, concise, and friendly. When providing code, use markdown code blocks.
For math equations, use LaTeX format: $inline$ or $$block$$
Use **bold**, *italic*, and __underline__ for emphasis.".

Definition build_mode_prompt : str :=
  [LF; LF] ++ py "You are now in Build mode. Focus on helping with code, programming, and app development. Provide well-structured, clean code with comments.".

Definition map_system_prompt : str :=
  py_dq "You are a location assistant. When given a location query:
1. Identify the locations mentioned
2. Provide coordinates (latitude/longitude)
3. Return a JSON response with this format:
{
  'locations': [
    {'name': 'Place Name', 'lat': 0.0, 'lng': 0.0, 'description': 'Brief description'}
  ],
  'center': {'lat': 0.0, 'lng': 0.0},
  'zoom': 12,
  'message': 'Description of the locations'
}
Only return valid JSON.".

Section Relay.

(** The runtime library. *)
Variable time : Type.                       (* the floats of [time.time()] *)
Variable elapsed : time -> time -> Z.       (* [int(a - b)] *)
Variable json_loads : str -> result json.   (* [json.loads] *)
Variable decode_utf8 : bytes -> result str. (* [bytes.decode('utf-8')] *)
Variable exn_str : exn -> str.              (* [str(e)] *)
Variable py_str : json -> str.              (* [str(v)] of a value *)

(** [f"{v}"] *)
Definition fmt (v : json) : str :=
  match v with
  | JStr s => s
  | _ => py_str v
  end.

(** What the process reads and does not change: the credential read at
    import, the clock (its successive readings) and the provider. *)
Record env : Type := {
  GOOGLE_API_KEY : str;
  clock : nat -> time;
  upstream : upstream_call -> post_outcome
}.

(** What the process changes: the liveness timestamp; the number of clock
    readings so far; the upstream calls made so far, oldest first. *)
Record world : Type := {
  last_request_time : time;
  ticks : nat;
  calls : list upstream_call
}.

(** Computations of a handler body: they read and change the world and may
    raise. *)
Definition M (A : Type) : Type := world -> result A * world.

Definition ret (A : Type) (a : A) : M A := fun w => (Ok a, w).

Definition bind (A B : Type) (c : M A) (k : A -> M B) : M B :=
  fun w =>
    match c w with
    | (Ok a, w') => k a w'
    | (Raise e, w') => (Raise e, w')
    end.

Definition lift (A : Type) (r : result A) : M A := fun w => (r, w).

(** [try: c  except Exception as e: h e] *)
Definition try_except (A : Type) (c : M A) (h : exn -> A) : world -> A * world :=
  fun w =>
    match c w with
    | (Ok a, w') => (a, w')
    | (Raise e, w') => (h e, w')
    end.

Notation "x <~ c ;; k" := (bind c (fun x => k))
  (at level 61, c at next level, right associativity).

Variable E : env.

(** [time.time()] *)
Definition time_time (w : world) : time * world :=
  (clock E (ticks w),
   {| last_request_time := last_request_time w;
      ticks := S (ticks w);
      calls := calls w |}).

(** [warm_up()] *)
Definition warm_up (w : world) : world :=
  let (t, w') := time_time w in
  {| last_request_time := t; ticks := ticks w'; calls := calls w' |}.

(** [requests.post(url, json=payload, stream=stream)] *)
Definition requests_post (c : upstream_call) : M http_response :=
  fun w =>
    (match upstream E c with
     | PostRaises e => Raise e
     | PostReturns r => Ok r
     end,
     {| last_request_time := last_request_time w;
        ticks := ticks w;
        calls := calls w ++ [c] |}).

(** ** Liveness endpoints *)

Definition health_check (w : world) : response * world :=
  let w1 := warm_up w in
  let (now, w2) := time_time w1 in
  let uptime := elapsed now (last_request_time w2) in
  (Json (JObj [(py "status", JStr (py "ok"));
               (py "service", JStr (py "lepen-ai-backend"));
               (py "uptime_seconds", JInt uptime);
               (py "ready", JBool true)]) 200,
   w2).

Definition ping (w : world) : response * world :=
  (Plain (py "pong") 200, warm_up w).

Definition not_configured : response :=
  Json (error_body (py "GOOGLE_API_KEY not configured")) 500.

(** [if not GOOGLE_API_KEY] *)
Definition no_key : bool :=
  match GOOGLE_API_KEY E with [] => true | _ => false end.

(** ** /api/chat *)

(** The body of the inner [try] of [generate] for the text after the
    [data: ] prefix: the events it yields.  Whatever it raises is dropped
    by the bare [except]. *)
Definition relay_chunk (chunk : str) : list sse :=
  match
    (data <- json_loads chunk ;;
     cands <- py_get data (py "candidates") (JArr [JObj []]) ;;
     cand <- getitem0 cands ;;
     cont <- py_get cand (py "content") (JObj []) ;;
     parts <- py_get cont (py "parts") (JArr [JObj []]) ;;
     part <- getitem0 parts ;;
     text <- py_get part (py "text") JNull ;;
     if truthy text then
       c1 <- getitem data (py "candidates") ;;
       c2 <- getitem0 c1 ;;
       c3 <- getitem c2 (py "content") ;;
       c4 <- getitem c3 (py "parts") ;;
       c5 <- getitem0 c4 ;;
       content <- getitem c5 (py "text") ;;
       Ok [delta_event content]
     else Ok [])
  with
  | Ok events => events
  | Raise _ => []
  end.

(** The body of the loop over [response.iter_lines()] for one line. *)
Definition relay_line (line : bytes) : result (list sse) :=
  match line with
  | [] => Ok []
  | _ :: _ =>
      line_str <- decode_utf8 line ;;
      if startswith line_str (py "data: ")
      then Ok (relay_chunk (skipn 6 line_str))
      else Ok []
  end.

(** The loop: the events yielded, and the exception that left the loop. *)
Fixpoint relay_lines (lines : list bytes) : list sse * option exn :=
  match lines with
  | [] => ([], None)
  | line :: rest =>
      match relay_line line with
      | Raise e => ([], Some e)
      | Ok events =>
          let (more, raised) := relay_lines rest in
          (events ++ more, raised)
      end
  end.

Definition chat_url : str :=
  GEMINI_API_URL ++ py "/gemini-2.0-flash:streamGenerateContent?key="
  ++ GOOGLE_API_KEY E ++ py "&alt=sse".

Definition chat_payload (contents : list json) (system_prompt : str) : json :=
  JObj [(py "contents", JArr contents);
        (py "systemInstruction",
         JObj [(py "parts", JArr [text_part (JStr system_prompt)])]);
        (py "generationConfig",
         JObj [(py "temperature", JFloat float_0_7);
               (py "maxOutputTokens", JInt 8192)])].

(** The generator [generate()] run to its end: every chunk it yields. *)
Definition generate (contents : list json) (system_prompt : str)
    (w : world) : list sse * world :=
  let call := {| call_url := chat_url;
                 call_payload := chat_payload contents system_prompt;
                 call_stream := true |} in
  match requests_post call w with
  | (Raise e, w') => ([error_event (exn_str e)], w')
  | (Ok resp, w') =>
      if negb (ok resp) then ([error_event (py "AI API error")], w')
      else
        match relay_lines (iter_lines resp) with
        | (events, Some e) => (events ++ [error_event (exn_str e)], w')
        | (events, None) =>
            match iter_raises resp with
            | Some e => (events ++ [error_event (exn_str e)], w')
            | None => (events ++ [SseDone], w')
            end
        end
  end.

(** The [try] block of [chat]. *)
Definition chat_body (req : request) : result response :=
  data <- request_json req ;;
  messages <- py_get data (py "messages") (JArr []) ;;
  mode <- py_get data (py "mode") (JStr (py "chat")) ;;
  image_data <- py_get data (py "imageData") JNull ;;
  let system_prompt :=
    if eq_str mode (py "code") then chat_system_prompt ++ build_mode_prompt
    else chat_system_prompt in
  contents <- gemini_contents messages image_data ;;
  Ok (EventStream contents system_prompt).

Definition server_error (e : exn) : response :=
  Json (error_body (exn_str e)) 500.

Definition chat (req : request) (w : world) : response * world :=
  match method req with
  | OPTIONS => (Plain [] 204, w)
  | POST =>
      let w1 := warm_up w in
      if no_key then (not_configured, w1)
      else try_except (lift (chat_body req)) server_error w1
  end.

(** ** /api/generate-image *)

Definition image_url : str :=
  GEMINI_API_URL
  ++ py "/gemini-2.0-flash-exp-image-generation:generateContent?key="
  ++ GOOGLE_API_KEY E.

Definition image_payload (parts : list json) : json :=
  JObj [(py "contents", JArr [JObj [(py "parts", JArr parts)]]);
        (py "generationConfig",
         JObj [(py "responseModalities",
                JArr [JStr (py "TEXT"); JStr (py "IMAGE")])])].

(** ['candidates' in result and len(result['candidates']) > 0] *)
Definition has_candidates (res : json) : result bool :=
  present <- py_in (py "candidates") res ;;
  if present then
    cands <- getitem res (py "candidates") ;;
    n <- py_len cands ;;
    Ok (Nat.ltb 0 n)
  else Ok false.

(** The body of [for part in parts], on [(image_url, text_content)]. *)
Definition scan_part (acc : json * json) (part : json)
    : result (json * json) :=
  inl <- py_in (py "inlineData") part ;;
  if inl then
    d1 <- getitem part (py "inlineData") ;;
    mime_type <- getitem d1 (py "mimeType") ;;
    d2 <- getitem part (py "inlineData") ;;
    b64_data <- getitem d2 (py "data") ;;
    Ok (JStr (py "data:" ++ fmt mime_type ++ py ";base64," ++ fmt b64_data),
        snd acc)
  else
    txt <- py_in (py "text") part ;;
    if txt then
      t <- getitem part (py "text") ;;
      Ok (fst acc, t)
    else Ok acc.

Fixpoint scan_parts (acc : json * json) (parts : list json)
    : result (json * json) :=
  match parts with
  | [] => Ok acc
  | part :: rest =>
      acc' <- scan_part acc part ;;
      scan_parts acc' rest
  end.

(** From [result = response.json()] to the end of the [try] block. *)
Definition image_result (is_edit : bool) (resp : http_response)
    : result response :=
  res <- response_json resp ;;
  some <- has_candidates res ;;
  if some then
    c1 <- getitem res (py "candidates") ;;
    c2 <- getitem0 c1 ;;
    c3 <- getitem c2 (py "content") ;;
    parts <- getitem c3 (py "parts") ;;
    let text_content :=
      if is_edit then JStr (py "Here's your edited image!")
      else JStr (py "Here's your generated image!") in
    items <- py_iter parts ;;
    acc <- scan_parts (JNull, text_content) items ;;
    Ok (Json (JObj [(py "imageUrl", fst acc); (py "text", snd acc)]) 200)
  else Ok (Json (error_body (py "No image generated")) 500).

(** The [try] block of [generate_image]. *)
Definition generate_image_body (req : request) : M response :=
  data <~ lift (request_json req) ;;
  prompt <~ lift (py_get data (py "prompt") (JStr [])) ;;
  image_data <~ lift (py_get data (py "imageData") JNull) ;;
  if negb (truthy prompt) then
    ret (Json (error_body (py "Prompt is required")) 400)
  else
    built <~ lift (image_parts (fmt prompt) image_data) ;;
    let (parts, is_edit) := (built : list json * bool) in
    resp <~ requests_post {| call_url := image_url;
                             call_payload := image_payload parts;
                             call_stream := false |} ;;
    if negb (ok resp) then
      ret (Json (error_body (py "Image generation failed")) 500)
    else lift (image_result is_edit resp).

Definition generate_image (req : request) (w : world) : response * world :=
  match method req with
  | OPTIONS => (Plain [] 204, w)
  | POST =>
      let w1 := warm_up w in
      if no_key then (not_configured, w1)
      else try_except (generate_image_body req) server_error w1
  end.

(** ** /api/web-search *)

Definition search_url : str :=
  GEMINI_API_URL ++ py "/gemini-2.0-flash:generateContent?key="
  ++ GOOGLE_API_KEY E.

Definition web_search_payload (query : json) : json :=
  JObj [(py "contents",
         JArr [JObj [(py "parts",
           JArr [text_part (JStr
             (py "Search and provide detailed information about: "
              ++ fmt query))])]]);
        (py "tools", JArr [JObj [(py "googleSearch", JObj [])]]);
        (py "generationConfig",
         JObj [(py "temperature", JFloat float_0_3);
               (py "maxOutputTokens", JInt 4096)])].

(** [result['candidates'][0]['content']['parts'][0]['text']] *)
Definition first_text (res : json) : result json :=
  c1 <- getitem res (py "candidates") ;;
  c2 <- getitem0 c1 ;;
  c3 <- getitem c2 (py "content") ;;
  c4 <- getitem c3 (py "parts") ;;
  c5 <- getitem0 c4 ;;
  getitem c5 (py "text").

(** From [result = response.json()] to the end of the [try] block. *)
Definition web_search_result (resp : http_response) : result response :=
  res <- response_json resp ;;
  some <- has_candidates res ;;
  if some then
    content <- first_text res ;;
    Ok (Json (JObj [(py "content", content); (py "results", content)]) 200)
  else Ok (Json (error_body (py "No search results")) 500).

(** The [try] block of [web_search]. *)
Definition web_search_body (req : request) : M response :=
  data <~ lift (request_json req) ;;
  query <~ lift (py_get data (py "query") (JStr [])) ;;
  resp <~ requests_post {| call_url := search_url;
                           call_payload := web_search_payload query;
                           call_stream := false |} ;;
  if negb (ok resp) then
    ret (Json (error_body (py "Search failed")) 500)
  else lift (web_search_result resp).

Definition web_search (req : request) (w : world) : response * world :=
  match method req with
  | OPTIONS => (Plain [] 204, w)
  | POST =>
      let w1 := warm_up w in
      if no_key then (not_configured, w1)
      else try_except (web_search_body req) server_error w1
  end.

(** ** /api/map-search *)

Definition map_search_payload (query : json) : json :=
  JObj [(py "contents",
         JArr [JObj [(py "parts",
           JArr [text_part (JStr
             (py "Find location information for: " ++ fmt query))])]]);
        (py "systemInstruction",
         JObj [(py "parts", JArr [text_part (JStr map_system_prompt)])]);
        (py "generationConfig",
         JObj [(py "temperature", JFloat float_0_2);
               (py "maxOutputTokens", JInt 2048)])].

Definition content_only (content : json) : response :=
  Json (JObj [(py "content", content)]) 200.

(** The inner [try] of [map_search] on a string [content] (lines 349-358).
    The handler of the bare [except] returns whatever [content] holds when
    the exception is raised: the candidate text while the right-hand side
    of an assignment to [content] is evaluated, the new value after it. *)
Definition map_data_of_text (content : str) : response :=
  match fence_extract content with
  | Raise _ => content_only (JStr content)
  | Ok inner =>
      match
        (map_data <- json_loads (strip inner) ;;
         message <- py_get map_data (py "message") (JStr []) ;;
         Ok (Json (JObj [(py "mapData", map_data);
                         (py "content", message)]) 200))
      with
      | Ok r => r
      | Raise _ => content_only (JStr inner)
      end
  end.

(** The inner [try] for any value of [content].  When [content] is not a
    string, the [try] always raises before [content] is assigned: ['...' in
    content] raises for a number, a boolean or None; for a list or a dict
    it is a membership test, after which [content.split] or
    [content.strip] does not exist. *)
Definition map_data_of (content : json) : response :=
  match content with
  | JStr s => map_data_of_text s
  | _ => content_only content
  end.

(** From [result = response.json()] to the end of the outer [try]. *)
Definition map_search_result (resp : http_response) : result response :=
  res <- response_json resp ;;
  some <- has_candidates res ;;
  if some then
    content <- first_text res ;;
    Ok (map_data_of content)
  else Ok (Json (error_body (py "No location results")) 500).

(** The outer [try] block of [map_search]. *)
Definition map_search_body (req : request) : M response :=
  data <~ lift (request_json req) ;;
  query <~ lift (py_get data (py "query") (JStr [])) ;;
  resp <~ requests_post {| call_url := search_url;
                           call_payload := map_search_payload query;
                           call_stream := false |} ;;
  if negb (ok resp) then
    ret (Json (error_body (py "Location search failed")) 500)
  else lift (map_search_result resp).

Definition map_search (req : request) (w : world) : response * world :=
  match method req with
  | OPTIONS => (Plain [] 204, w)
  | POST =>
      let w1 := warm_up w in
      if no_key then (not_configured, w1)
      else try_except (map_search_body req) server_error w1
  end.

(** The four AI-backed endpoints. *)
Inductive endpoint : Type :=
| ApiChat | ApiGenerateImage | ApiWebSearch | ApiMapSearch.

Definition handle (ep : endpoint) : request -> world -> response * world :=
  match ep with
  | ApiChat => chat
  | ApiGenerateImage => generate_image
  | ApiWebSearch => web_search
  | ApiMapSearch => map_search
  end.

End Relay.


(** * Vocabulary of the properties *)

(** The input does not go on with a character of [set]. *)
Definition run_ends (set : N -> bool) (rest : str) : Prop :=
  match rest with
  | [] => True
  | c :: _ => set c = false
  end.

(** The subjects that the data-URI pattern matches, and its groups: a
    non-empty type without semicolon, a non-empty payload without line
    feed, and nothing after it but, possibly, one line feed. *)
Definition data_uri_form (s mime data : str) : Prop :=
  mime <> [] /\ ~ In semicolon mime /\ data <> [] /\ ~ In LF data
  /\ (s = py "data:" ++ mime ++ py ";base64," ++ data
      \/ s = py "data:" ++ mime ++ py ";base64," ++ data ++ [LF]).

(** The upstream turn [turn] is the translation of the message [msg]: its
    role is [user] for the role [user] and [model] for any other role, and
    its parts are the text of the message, preceded by an inline image
    block when an image was decoded for the turn. *)
Definition turn_of (msg turn : json) : Prop :=
  exists r c role img,
    getitem msg (py "role") = Ok r
    /\ getitem msg (py "content") = Ok c
    /\ (r = JStr (py "user") -> role = py "user")
    /\ (r <> JStr (py "user") -> role = py "model")
    /\ turn = JObj [(py "role", JStr role);
                    (py "parts", JArr (img ++ [text_part c]))]
    /\ (img = [] \/ exists mime data, img = [inline_data mime data])
    /\ (forall s mime data,
          py_get msg (py "imageData") JNull = Ok (JStr s) ->
          match_data_uri s = Some (mime, data) ->
          img = [inline_data mime data]).

(** A delta-content chunk of the chat stream. *)
Definition is_delta (e : sse) : Prop := exists content, e = delta_event content.

(** The number of [data: [DONE]] chunks in a stream. *)
Fixpoint count_done (events : list sse) : nat :=
  match events with
  | [] => 0
  | SseDone :: rest => S (count_done rest)
  | SseData _ :: rest => count_done rest
  end.

(** [s.split(sep)[0]]: the text before the first occurrence of [sep]. *)
Definition up_to (sep s : str) : str :=
  match break_on sep s with
  | Some (a, _) => a
  | None => s
  end.

(** [text] wraps the block [body] in fence markers.  With a json-tagged
    fence in [text], the block starts after the first one and ends at the
    first fence that follows, before any further json-tagged fence.
    Without a json-tagged fence, the block lies between the first two
    fences.  [break_on] is the split at the first occurrence. *)
Definition fenced (text body : str) : Prop :=
  (exists pre rest post,
     break_on fence_json text = Some (pre, rest)
     /\ break_on fence (up_to fence_json rest) = Some (body, post))
  \/ (exists pre rest post,
        contains fence_json text = false
        /\ break_on fence text = Some (pre, rest)
        /\ break_on fence rest = Some (body, post)).

(** ** A runtime for the examples *)

(** Clock readings in whole seconds. *)
Definition example_elapsed (a b : Z) : Z := (a - b)%Z.

(** [json.loads] on the texts of the examples; the table rejects every
    other text. *)
Definition example_loads (s : str) : result json :=
  if str_eqb s (py_dq "{'message': 'Paris'}") then
    Ok (JObj [(py "message", JStr (py "Paris"))])
  else if str_eqb s
    (py_dq "{'candidates': [{'content': {'parts': [{'text': 'Hi'}]}}]}")
  then
    Ok (JObj [(py "candidates",
      JArr [JObj [(py "content",
        JObj [(py "parts", JArr [JObj [(py "text", JStr (py "Hi"))]])])]])])
  else Raise ValueError.

(** [bytes.decode('utf-8')] on ASCII bytes, which is all the examples
    decode. *)
Definition example_decode (b : bytes) : result str :=
  if forallb (fun x => N.ltb (Byte.to_N x) 128) b
  then Ok (map Byte.to_N b)
  else Raise UnicodeDecodeError.

Definition example_exn_str (e : exn) : str :=
  match e with
  | RaisedBy _ message => message
  | _ => py "error"
  end.

(** [str(v)] on the values the examples format, which are strings. *)
Definition example_py_str (v : json) : str :=
  match v with
  | JStr s => s
  | _ => py "None"
  end.

(** The [bytes] of an ASCII literal, written with an apostrophe wherever
    the line has a double quote. *)
Definition example_bytes (s : string) : bytes :=
  map (fun a => byte_of_ascii
                  (if Ascii.eqb a (ascii_of_nat 39) then ascii_of_nat 34
                   else a))
      (list_ascii_of_string s).

(** The process of the examples: its clock starts at a fixed second and
    advances by one second at every reading. *)
Definition example_clock (n : nat) : Z := (1700000000 + Z.of_nat n)%Z.

Definition example_env (key : str) (provider : upstream_call -> post_outcome)
    : env Z :=
  {| GOOGLE_API_KEY := key; clock := example_clock; upstream := provider |}.

Definition example_world : world Z :=
  {| last_request_time := 1700000000%Z; ticks := 0; calls := [] |}.

Definition post_json (body : json) : request :=
  {| method := POST; request_json := Ok body |}.

(** A provider that answers every call with a non-success status. *)
Definition provider_unavailable (c : upstream_call) : post_outcome :=
  PostReturns {| ok := false;
                 response_json := Raise ValueError;
                 iter_lines := [];
                 iter_raises := None |}.

(** A provider whose connection breaks after the first streamed chunk. *)
Definition provider_breaks (c : upstream_call) : post_outcome :=
  PostReturns
    {| ok := true;
       response_json := Raise ValueError;
       iter_lines :=
         [example_bytes
            "data: {'candidates': [{'content': {'parts': [{'text': 'Hi'}]}}]}"];
       iter_raises := Some (RaisedBy (py "requests") (py "Connection broken")) |}.

(** The same provider when the stream ends normally. *)
Definition provider_streams (c : upstream_call) : post_outcome :=
  PostReturns
    {| ok := true;
       response_json := Raise ValueError;
       iter_lines :=
         [example_bytes
            "data: {'candidates': [{'content': {'parts': [{'text': 'Hi'}]}}]}";
          example_bytes ""];
       iter_raises := None |}.

(** A provider whose first candidate is the text [text]. *)
Definition provider_says (text : str) (c : upstream_call) : post_outcome :=
  PostReturns
    {| ok := true;
       response_json :=
         Ok (JObj [(py "candidates",
           JArr [JObj [(py "content",
             JObj [(py "parts", JArr [JObj [(py "text", JStr text)]])])]])]);
       iter_lines := [];
       iter_raises := None |}.

(** A fenced block that is not JSON, and one that is. *)
Definition fenced_prose : str :=
  py "```json" ++ [LF] ++ py "not json" ++ [LF] ++ py "```".

Definition fenced_object : str :=
  py "Here it is: ```json" ++ [LF] ++ py_dq "{'message': 'Paris'}" ++ [LF]
  ++ py "``` Enjoy.".


(** A conversation of two turns; the first carries an image. *)
Definition example_image : str := py "data:image/png;base64,iVBORw0KGgo=".

Definition example_user_turn : list (str * json) :=
  [(py "role", JStr (py "user"));
   (py "content", JStr (py "What is this?"));
   (py "imageData", JStr example_image)].

Definition example_assistant_turn : list (str * json) :=
  [(py "role", JStr (py "assistant")); (py "content", JStr (py "A cat."))].

Definition example_messages : list json :=
  [JObj example_user_turn; JObj example_assistant_turn].

(** ** Vocabulary of the further properties *)

(** The lenient probe of [relay_chunk]:
    [data.get('candidates', [{}])[0].get('content', {}).get('parts',
    [{}])[0].get('text')]. *)
Definition probe_text (data : json) : result json :=
  cands <- py_get data (py "candidates") (JArr [JObj []]) ;;
  cand <- getitem0 cands ;;
  cont <- py_get cand (py "content") (JObj []) ;;
  parts <- py_get cont (py "parts") (JArr [JObj []]) ;;
  part <- getitem0 parts ;;
  py_get part (py "text") JNull.

(** A delta-content chunk whose content is truthy. *)
Definition is_spoken (e : sse) : Prop :=
  exists content, e = delta_event content /\ truthy content = true.

(** The fixed message of a buffered endpoint when the provider answers
    with a non-success status. *)
Definition upstream_failed_message (ep : endpoint) : str :=
  match ep with
  | ApiChat => py "AI API error"
  | ApiGenerateImage => py "Image generation failed"
  | ApiWebSearch => py "Search failed"
  | ApiMapSearch => py "Location search failed"
  end.

(** The fixed message of a buffered endpoint when the provider's answer
    has no candidate. *)
Definition no_candidates_message (ep : endpoint) : str :=
  match ep with
  | ApiChat => []
  | ApiGenerateImage => py "No image generated"
  | ApiWebSearch => py "No search results"
  | ApiMapSearch => py "No location results"
  end.

Section AfterCall.

Variable time : Type.
Variable json_loads : str -> result json.
Variable exn_str : exn -> str.
Variable py_str : json -> str.
Variable E : env time.

(** What a buffered endpoint answers once its call of the provider has
    had the outcome [o]. *)
Definition after_call (ep : endpoint) (is_edit : bool) (o : post_outcome)
    : response :=
  match o with
  | PostRaises e => server_error exn_str e
  | PostReturns r =>
      if ok r then
        match
          match ep with
          | ApiChat => Raise ValueError
          | ApiGenerateImage => image_result py_str is_edit r
          | ApiWebSearch => web_search_result r
          | ApiMapSearch => map_search_result json_loads r
          end
        with
        | Ok x => x
        | Raise e => server_error exn_str e
        end
      else Json (error_body (upstream_failed_message ep)) 500
  end.

End AfterCall.

(** [prompt = data.get('prompt', '')] for the body [kvs]. *)
Definition prompt_of (kvs : list (str * json)) : json :=
  match lookup (py "prompt") kvs with
  | Some v => v
  | None => JStr []
  end.

(** A provider that answers with an empty JSON object. *)
Definition provider_empty (c : upstream_call) : post_outcome :=
  PostReturns {| ok := true;
                 response_json := Ok (JObj []);
                 iter_lines := [];
                 iter_raises := None |}.

(** A request whose body Flask cannot read as JSON. *)
Definition post_unreadable : request :=
  {| method := POST;
     request_json := Raise (RaisedBy (py "werkzeug") (py "400 Bad Request")) |}.

(** A process that has served five clock readings. *)
Definition busy_world : world Z :=
  {| last_request_time := 1700000003%Z; ticks := 5; calls := [] |}.

(** The call that web search makes for [Paris] in the examples. *)
Definition paris_search (key : str) : upstream_call :=
  {| call_url := search_url (example_env key provider_unavailable);
     call_payload := web_search_payload example_py_str (JStr (py "Paris"));
     call_stream := false |}.

(** The call that map search makes for [Paris] in the examples. *)
Definition paris_map (key : str) : upstream_call :=
  {| call_url := search_url (example_env key provider_unavailable);
     call_payload := map_search_payload example_py_str (JStr (py "Paris"));
     call_stream := false |}.

Definition paris_query : request :=
  post_json (JObj [(py "query", JStr (py "Paris"))]).

(** [json.loads] of the examples, extended with one list. *)
Definition example_loads_list (s : str) : result json :=
  if str_eqb s (py "[1, 2]") then Ok (JArr [JInt 1; JInt 2])
  else example_loads s.

(** A fenced block that holds a JSON list. *)
Definition fenced_list : str :=
  py "```json" ++ [LF] ++ py "[1, 2]" ++ [LF] ++ py "```".

(** A JSON object in a plain fenced block, followed by a json-tagged
    block that is not JSON. *)
Definition plain_object_then_tagged_prose : str :=
  py "```" ++ [LF] ++ py_dq "{'message': 'Paris'}" ++ [LF] ++ py "``` or "
  ++ fenced_prose.

(** * Properties *)

Unset Implicit Arguments.

(** ** Text *)

Lemma str_eqb_eq (a b : str) : str_eqb a b = true <-> a = b.
Proof.
  revert b; induction a as [|x a IH]; intros [|y b]; simpl;
    try (split; [discriminate | congruence]); try tauto.
  rewrite andb_true_iff, N.eqb_eq, IH.
  split; [intros [-> ->]; reflexivity | intros [= -> ->]; auto].
Qed.

Lemma str_eqb_refl (a : str) : str_eqb a a = true.
Proof. apply str_eqb_eq; reflexivity. Qed.

Lemma strip_prefix_app (p s : str) : strip_prefix p (p ++ s) = Some s.
Proof.
  induction p as [|x p IH]; simpl; [reflexivity|].
  rewrite N.eqb_refl; exact IH.
Qed.

Lemma strip_prefix_inv (p s r : str) :
  strip_prefix p s = Some r -> s = p ++ r.
Proof.
  revert s; induction p as [|x p IH]; intros s; simpl.
  - intros [= ->]; reflexivity.
  - destruct s as [|y s]; [discriminate|].
    destruct (N.eqb_spec x y) as [->|]; [|discriminate].
    intros H; rewrite (IH _ H); reflexivity.
Qed.

Lemma startswith_app (p s : str) : startswith (p ++ s) p = true.
Proof. unfold startswith; rewrite strip_prefix_app; reflexivity. Qed.

(** ** The data-URI pattern *)

Section Greedy.

Variable R : Type.
Variable set : N -> bool.
Variable k : str -> str -> option R.

Lemma plus_greedy_stuck (rest acc : str) :
  run_ends set rest -> plus_greedy set rest acc k = None.
Proof.
  destruct rest as [|c rest]; simpl; [reflexivity|].
  intros ->; reflexivity.
Qed.

(** When the continuation cannot start at a character of the set, only the
    longest run can match. *)
Hypothesis k_needs_end :
  forall g c s, set c = true -> k g (c :: s) = None.

Lemma plus_greedy_longest (run rest acc : str) :
  run <> [] -> Forall (fun c => set c = true) run -> run_ends set rest ->
  plus_greedy set (run ++ rest) acc k = k (rev acc ++ run) rest.
Proof.
  revert acc; induction run as [|c run IH]; intros acc Hne Hall Hend;
    [congruence|].
  inversion Hall as [|? ? Hc Hrun]; subst.
  simpl; rewrite Hc.
  destruct run as [|c' run'].
  - simpl; rewrite (plus_greedy_stuck _ _ Hend); reflexivity.
  - rewrite IH by (auto; discriminate).
    simpl rev; rewrite <- app_assoc; simpl.
    destruct (k (rev acc ++ c :: c' :: run') rest) eqn:Hk; [reflexivity|].
    inversion Hrun; subst.
    rewrite k_needs_end by assumption.
    reflexivity.
Qed.

End Greedy.

Lemma plus_greedy_inv (R : Type) (set : N -> bool)
    (k : str -> str -> option R) (s acc : str) (r : R) :
  plus_greedy set s acc k = Some r ->
  exists run rest,
    s = run ++ rest /\ run <> [] /\ Forall (fun c => set c = true) run
    /\ k (rev acc ++ run) rest = Some r.
Proof.
  revert acc; induction s as [|c s IH]; intros acc; simpl; [discriminate|].
  destruct (set c) eqn:Hc; [|discriminate].
  destruct (plus_greedy set s (c :: acc) k) eqn:Hg.
  - intros [= ->].
    destruct (IH _ Hg) as (run & rest & -> & _ & Hall & Hk).
    exists (c :: run), rest; repeat split; auto; [discriminate|].
    simpl in Hk; rewrite <- app_assoc in Hk; exact Hk.
  - intros Hk; exists [c], s; repeat split; auto; discriminate.
Qed.

Lemma re_run_lits (lit : str) (r : list re_item) (pos : nat) (s : str)
    (g : list str) :
  re_run (map ReLit lit ++ r) pos (lit ++ s) g
  = re_run r (pos + length lit) s g.
Proof.
  revert pos; induction lit as [|c lit IH]; intros pos; simpl.
  - rewrite Nat.add_0_r; reflexivity.
  - rewrite N.eqb_refl, IH; f_equal; lia.
Qed.

Lemma re_run_lits_inv (lit : str) (r : list re_item) (pos : nat) (s : str)
    (g x : list str) :
  re_run (map ReLit lit ++ r) pos s g = Some x ->
  exists s', s = lit ++ s' /\ re_run r (pos + length lit) s' g = Some x.
Proof.
  revert pos s; induction lit as [|c lit IH]; intros pos s; simpl.
  - intros H; exists s; rewrite Nat.add_0_r; auto.
  - destruct s as [|c' s]; [discriminate|].
    destruct (N.eqb_spec c c') as [<-|]; [|discriminate].
    intros H; destruct (IH _ _ H) as (s' & -> & H').
    exists s'; split; [reflexivity|].
    rewrite <- H'; f_equal; lia.
Qed.

Lemma not_in_forall (c : N) (l : str) :
  ~ In c l -> Forall (fun x => negb (N.eqb x c) = true) l.
Proof.
  intros H; apply Forall_forall; intros x Hx.
  destruct (N.eqb_spec x c) as [->|]; [contradiction | reflexivity].
Qed.

Lemma forall_not_in (c : N) (l : str) :
  Forall (fun x => negb (N.eqb x c) = true) l -> ~ In c l.
Proof.
  intros H Hin; rewrite Forall_forall in H.
  specialize (H _ Hin); rewrite N.eqb_refl in H; discriminate.
Qed.

Lemma match_data_uri_complete (s mime data : str) :
  data_uri_form s mime data -> match_data_uri s = Some (mime, data).
Proof.
  intros (Hm & Hsemi & Hd & Hlf & Hs).
  assert (Htail : exists tail, (tail = [] \/ tail = [LF])
            /\ s = py "data:" ++ mime ++ py ";base64," ++ data ++ tail).
  { destruct Hs as [-> | ->];
      [exists []; rewrite app_nil_r | exists [LF]]; auto. }
  clear Hs; destruct Htail as (tail & Htail & ->).
  unfold match_data_uri, re_match, data_uri_re.
  cbn [app re_run].
  rewrite re_run_lits.
  cbn [app re_run].
  rewrite plus_greedy_longest;
    [ | | assumption | apply not_in_forall; assumption | reflexivity ].
  - cbn [rev app].
    rewrite re_run_lits.
    cbn [app re_run].
    rewrite plus_greedy_longest;
      [ | | assumption | apply not_in_forall; assumption | ].
    + destruct Htail as [-> | ->]; reflexivity.
    + intros g c s Hc.
      apply negb_true_iff in Hc.
      cbn [re_run]; destruct s; [rewrite Hc|]; reflexivity.
    + destruct Htail as [-> | ->]; reflexivity.
  - intros g c s Hc.
    apply negb_true_iff in Hc; rewrite N.eqb_sym in Hc.
    change (map ReLit (py ";base64,"))
      with (ReLit semicolon :: map ReLit (py "base64,")).
    cbn [app re_run]; rewrite Hc; reflexivity.
Qed.

Lemma match_data_uri_sound (s mime data : str) :
  match_data_uri s = Some (mime, data) -> data_uri_form s mime data.
Proof.
  unfold match_data_uri, re_match, data_uri_re.
  destruct (re_run _ 0 s []) as [groups|] eqn:Hrun; [|discriminate].
  cbn [app re_run] in Hrun.
  apply re_run_lits_inv in Hrun; destruct Hrun as (s1 & -> & Hrun).
  cbn [app re_run] in Hrun.
  apply plus_greedy_inv in Hrun.
  destruct Hrun as (m & r1 & -> & Hm & Hmall & Hrun).
  cbn [rev app] in Hrun.
  apply re_run_lits_inv in Hrun; destruct Hrun as (s2 & -> & Hrun).
  cbn [app re_run] in Hrun.
  apply plus_greedy_inv in Hrun.
  destruct Hrun as (d & r2 & -> & Hd & Hdall & Hrun).
  cbn [rev app re_run] in Hrun.
  assert (Hend : (r2 = [] \/ r2 = [LF]) /\ groups = [m; d]).
  { destruct r2 as [|c [|c' r2]]; try discriminate.
    - injection Hrun as <-; auto.
    - destruct (N.eqb_spec c LF) as [->|]; [|discriminate].
      injection Hrun as <-; auto. }
  destruct Hend as (Hr2 & ->).
  intros [= <- <-].
  repeat split; auto using forall_not_in.
  destruct Hr2 as [-> | ->]; [left; rewrite app_nil_r | right]; reflexivity.
Qed.

Lemma match_data_uri_startswith (s mime data : str) :
  match_data_uri s = Some (mime, data) -> startswith s (py "data:") = true.
Proof.
  intros H; apply match_data_uri_sound in H.
  destruct H as (_ & _ & _ & _ & [-> | ->]); apply startswith_app.
Qed.

(** ** Image extraction *)

Lemma extract_image_data_uri (s mime data : str) :
  match_data_uri s = Some (mime, data) ->
  extract_image (JStr s) = Ok (Some (inline_data mime data)).
Proof.
  intros H; unfold extract_image.
  rewrite (match_data_uri_startswith _ _ _ H), H.
  apply match_data_uri_sound in H.
  destruct H as (_ & _ & _ & _ & [-> | ->]); reflexivity.
Qed.

Lemma extract_image_no_match (s : str) :
  match_data_uri s = None -> extract_image (JStr s) = Ok None.
Proof.
  intros H; unfold extract_image; rewrite H.
  destruct (truthy (JStr s)), (startswith s (py "data:")); reflexivity.
Qed.

Lemma extract_image_some (image block : json) :
  extract_image image = Ok (Some block) ->
  exists s mime data,
    image = JStr s /\ match_data_uri s = Some (mime, data)
    /\ block = inline_data mime data.
Proof.
  unfold extract_image.
  destruct (truthy image); [|discriminate].
  destruct image as [| | | |s| |]; try discriminate.
  destruct (startswith s (py "data:")); [|discriminate].
  destruct (match_data_uri s) as [[mime data]|] eqn:Hm; [|discriminate].
  intros [= <-]; exists s, mime, data; auto.
Qed.

Lemma extract_image_falsy (image : json) :
  truthy image = false -> extract_image image = Ok None.
Proof. intros H; unfold extract_image; rewrite H; reflexivity. Qed.

(** A string always goes through the extraction without an exception. *)
Lemma extract_image_str_total (s : str) :
  exists r, extract_image (JStr s) = Ok r.
Proof.
  destruct (match_data_uri s) as [[mime data]|] eqn:Hm.
  - rewrite (extract_image_data_uri _ _ _ Hm); eauto.
  - rewrite (extract_image_no_match _ Hm); eauto.
Qed.

Lemma eq_str_true (v : json) (lit : str) :
  eq_str v lit = true <-> v = JStr lit.
Proof.
  destruct v; simpl; try (split; [discriminate | congruence]).
  rewrite str_eqb_eq; split; congruence.
Qed.

(** The turn that the chat loop builds for a message that carries its own
    image [own], a truthy value. *)
Lemma chat_turn_own_image (n i : nat) (top own r c : json)
    (kvs : list (str * json)) :
  lookup (py "role") kvs = Some r ->
  lookup (py "content") kvs = Some c ->
  lookup (py "imageData") kvs = Some own ->
  truthy own = true ->
  chat_turn n top i (JObj kvs) =
    (img <- extract_image own ;;
     Ok (JObj [(py "role",
                JStr (if eq_str r (py "user") then py "user" else py "model"));
               (py "parts",
                JArr (match img with Some b => [b] | None => [] end
                      ++ [text_part c]))])).
Proof.
  intros Hr Hc Hi Ht.
  unfold chat_turn, getitem, py_get, py_or.
  rewrite Hr, Hc, Hi; cbn [rbind]; rewrite Ht.
  destruct (extract_image own) as [img|]; reflexivity.
Qed.

Lemma data_uri_nonempty (s mime data : str) :
  data_uri_form s mime data -> truthy (JStr s) = true.
Proof. intros (_ & _ & _ & _ & [-> | ->]); reflexivity. Qed.

(** C2, as stated, fails: this data URI has the documented form, with the
    type [image/png] and a payload of two base64 lines, and no image block
    is attached for it. *)
Lemma line_feed_payload_is_skipped :
  ~ In semicolon (py "image/png")
  /\ extract_image
       (JStr (py "data:" ++ py "image/png" ++ py ";base64,"
              ++ (py "AAAA" ++ [LF] ++ py "BBBB")))
     = Ok None.
Proof.
  split; [|reflexivity].
  cbv; intros H.
  repeat (destruct H as [H|H]; [discriminate H|]); exact H.
Qed.

(** C2, amended: a data URI [data:<mime>;base64,<payload>] whose type is
    not empty and holds no semicolon, and whose payload is not empty and
    holds no line feed, is matched with exactly these two groups, and both
    endpoints attach the inline image block: image generation puts it
    before the edit instruction, chat puts it before the text of the turn.
    A string [other] that is not of the form [data:<mime>;base64,<payload>]
    (for any type without semicolon and any payload) passes without an
    exception and without an image block. *)
Theorem data_uri_image_extraction
    (mime payload other prompt : str) (n i : nat) (top r c : json)
    (kvs : list (str * json)) :
  mime <> [] -> ~ In semicolon mime ->
  payload <> [] -> ~ In LF payload ->
  (forall m p, ~ In semicolon m ->
               other <> py "data:" ++ m ++ py ";base64," ++ p) ->
  lookup (py "role") kvs = Some r ->
  lookup (py "content") kvs = Some c ->
  match_data_uri (py "data:" ++ mime ++ py ";base64," ++ payload)
    = Some (mime, payload)
  /\ extract_image (JStr (py "data:" ++ mime ++ py ";base64," ++ payload))
     = Ok (Some (inline_data mime payload))
  /\ image_parts prompt
       (JStr (py "data:" ++ mime ++ py ";base64," ++ payload))
     = Ok ([inline_data mime payload;
            text_part (JStr (py "Edit this image: " ++ prompt))], true)
  /\ (lookup (py "imageData") kvs
        = Some (JStr (py "data:" ++ mime ++ py ";base64," ++ payload)) ->
      chat_turn n top i (JObj kvs)
      = Ok (JObj [(py "role",
                   JStr (if eq_str r (py "user") then py "user"
                         else py "model"));
                  (py "parts",
                   JArr [inline_data mime payload; text_part c])]))
  /\ extract_image (JStr other) = Ok None
  /\ image_parts prompt (JStr other)
     = Ok ([text_part (JStr (py "Generate an image: " ++ prompt))], false)
  /\ (lookup (py "imageData") kvs = Some (JStr other) -> other <> [] ->
      chat_turn n top i (JObj kvs)
      = Ok (JObj [(py "role",
                   JStr (if eq_str r (py "user") then py "user"
                         else py "model"));
                  (py "parts", JArr [text_part c])])).
Proof.
  intros Hm Hsemi Hp Hlf Hother Hr Hc.
  assert (Hform : data_uri_form
            (py "data:" ++ mime ++ py ";base64," ++ payload) mime payload).
  { repeat split; auto. }
  pose proof (match_data_uri_complete _ _ _ Hform) as Hmatch.
  pose proof (extract_image_data_uri _ _ _ Hmatch) as Hex.
  assert (Hnone : extract_image (JStr other) = Ok None).
  { apply extract_image_no_match.
    destruct (match_data_uri other) as [[m d]|] eqn:Hmo; [|reflexivity].
    apply match_data_uri_sound in Hmo.
    destruct Hmo as (_ & Hs & _ & _ & [Ho | Ho]);
      exfalso; eapply Hother; eauto. }
  repeat split.
  - exact Hmatch.
  - exact Hex.
  - unfold image_parts; rewrite Hex; reflexivity.
  - intros Hi.
    rewrite (chat_turn_own_image n i top _ r c kvs Hr Hc Hi
               (data_uri_nonempty _ _ _ Hform)).
    rewrite Hex; reflexivity.
  - exact Hnone.
  - unfold image_parts; rewrite Hnone; reflexivity.
  - intros Hi Hne.
    rewrite (chat_turn_own_image n i top _ r c kvs Hr Hc Hi).
    + rewrite Hnone; reflexivity.
    + destruct other; [congruence | reflexivity].
Qed.

(** What the pattern does with a line feed in the payload: one line feed
    at the very end is left out of the payload. *)
Lemma trailing_line_feed_is_dropped (mime payload : str) :
  mime <> [] -> ~ In semicolon mime -> payload <> [] -> ~ In LF payload ->
  match_data_uri (py "data:" ++ mime ++ py ";base64," ++ payload ++ [LF])
  = Some (mime, payload).
Proof.
  intros; apply match_data_uri_complete; repeat split; auto.
Qed.

(** ** Chat: the payload translator *)

Lemma chat_turn_not_last (n i : nat) (top top' msg : json) :
  S i <> n -> chat_turn n top i msg = chat_turn n top' i msg.
Proof.
  intros Hi; unfold chat_turn.
  destruct (Z.eqb_spec (Z.of_nat i) (Z.of_nat n - 1)); [lia | reflexivity].
Qed.

Lemma chat_turn_own_wins (n i : nat) (top top' msg own : json) :
  py_get msg (py "imageData") JNull = Ok own -> truthy own = true ->
  chat_turn n top i msg = chat_turn n top' i msg.
Proof.
  intros Hown Ht; unfold chat_turn, py_or.
  destruct (getitem msg (py "role")); [|reflexivity].
  rewrite Hown; cbn [rbind]; rewrite Ht; reflexivity.
Qed.

Lemma lookup_other_key (k k' : str) (v : json) (kvs : list (str * json)) :
  str_eqb k k' = false -> lookup k ((k', v) :: kvs) = lookup k kvs.
Proof. intros H; simpl; rewrite H; reflexivity. Qed.

Lemma chat_turn_last_takes_top (n i : nat) (top own : json)
    (kvs : list (str * json)) :
  S i = n ->
  py_get (JObj kvs) (py "imageData") JNull = Ok own -> truthy own = false ->
  chat_turn n top i (JObj kvs)
  = chat_turn n JNull i (JObj ((py "imageData", top) :: kvs)).
Proof.
  intros Hi Hown Ht; unfold chat_turn, getitem, py_or.
  rewrite Hown.
  unfold py_get.
  rewrite !(lookup_other_key _ (py "imageData")) by reflexivity.
  change (lookup (py "imageData") ((py "imageData", top) :: kvs))
    with (Some top).
  destruct (lookup (py "role") kvs) as [r|]; [|reflexivity].
  cbn [rbind]; rewrite Ht.
  destruct (Z.eqb_spec (Z.of_nat i) (Z.of_nat n - 1)) as [_|]; [|lia].
  destruct (truthy top) eqn:Htop; [reflexivity|].
  rewrite (extract_image_falsy top Htop); reflexivity.
Qed.

Lemma chat_turns_length (n : nat) (top : json) (msgs : list json) :
  forall i contents,
    chat_turns n top i msgs = Ok contents -> length contents = length msgs.
Proof.
  induction msgs as [|msg rest IH]; intros i contents; simpl.
  - intros [= <-]; reflexivity.
  - destruct (chat_turn n top i msg); [|discriminate]; cbn [rbind].
    destruct (chat_turns n top (S i) rest) eqn:Hrest; [|discriminate].
    intros [= <-]; simpl; f_equal; eauto.
Qed.

Lemma removelast_cons (A : Type) (x : A) (l : list A) :
  l <> [] -> removelast (x :: l) = x :: removelast l.
Proof. destruct l; [congruence | reflexivity]. Qed.

Lemma chat_turns_all_but_last (n : nat) (top top' : json)
    (msgs : list json) :
  forall i contents contents',
    i + length msgs = n ->
    chat_turns n top i msgs = Ok contents ->
    chat_turns n top' i msgs = Ok contents' ->
    removelast contents = removelast contents'.
Proof.
  induction msgs as [|msg rest IH]; intros i contents contents' Hn; simpl.
  - intros [= <-] [= <-]; reflexivity.
  - destruct rest as [|msg' rest'].
    + destruct (chat_turn n top i msg); [|discriminate].
      destruct (chat_turn n top' i msg); [|discriminate].
      simpl; intros [= <-] [= <-]; reflexivity.
    + rewrite (chat_turn_not_last n i top top' msg)
        by (simpl in Hn; lia).
      destruct (chat_turn n top' i msg) as [t|]; [|discriminate].
      cbn [rbind].
      destruct (chat_turns n top (S i) (msg' :: rest')) as [ts|] eqn:H1;
        [|discriminate].
      destruct (chat_turns n top' (S i) (msg' :: rest')) as [ts'|] eqn:H2;
        [|discriminate].
      intros [= <-] [= <-].
      pose proof (chat_turns_length _ _ _ _ _ H1) as L1.
      pose proof (chat_turns_length _ _ _ _ _ H2) as L2.
      rewrite !removelast_cons
        by (intros ->; simpl in *; discriminate).
      f_equal; apply (IH (S i)); auto.
      simpl in *; lia.
Qed.

Lemma chat_turn_object (n i : nat) (top r c own : json)
    (mk : list (str * json)) :
  lookup (py "role") mk = Some r ->
  lookup (py "content") mk = Some c ->
  py_get (JObj mk) (py "imageData") JNull = Ok own ->
  chat_turn n top i (JObj mk) =
    (img <- extract_image
              (py_or own (if Z.eqb (Z.of_nat i) (Z.of_nat n - 1) then top
                          else JNull)) ;;
     Ok (JObj [(py "role",
                JStr (if eq_str r (py "user") then py "user" else py "model"));
               (py "parts",
                JArr (match img with Some b => [b] | None => [] end
                      ++ [text_part c]))])).
Proof.
  intros Hr Hc Hown; unfold chat_turn, getitem.
  rewrite Hr, Hc, Hown; cbn [rbind].
  destruct (extract_image _); reflexivity.
Qed.

Lemma chat_turns_nth (n : nat) (top : json) (msgs : list json) :
  forall i0 contents k msg,
    chat_turns n top i0 msgs = Ok contents ->
    nth_error msgs k = Some msg ->
    exists turn,
      nth_error contents k = Some turn
      /\ chat_turn n top (i0 + k) msg = Ok turn.
Proof.
  induction msgs as [|m rest IH]; intros i0 contents k msg; simpl.
  - destruct k; discriminate.
  - destruct (chat_turn n top i0 m) as [t|] eqn:Ht; [|discriminate].
    cbn [rbind].
    destruct (chat_turns n top (S i0) rest) as [ts|] eqn:Hts; [|discriminate].
    intros [= <-]; destruct k as [|k]; simpl.
    + intros [= <-]; exists t; rewrite Nat.add_0_r; auto.
    + intros Hk; destruct (IH _ _ _ _ Hts Hk) as (turn & Hn & Hturn).
      exists turn; split; [exact Hn|].
      rewrite <- Hturn; f_equal; lia.
Qed.

(** C6: in the contents built for a message list, the top-level
    [imageData] reaches the final turn only, and only when that turn has
    no image of its own.  For the message at index [i], an object with a
    role and a content:
    (1) when it is the final message and its own [imageData] is falsy,
    and the top-level image is a data URI that decodes, its turn holds the
    block of the top-level image before its text;
    (2) when it is not the final message and its own [imageData] is falsy,
    its turn holds its text alone, whatever the top-level image is;
    (3) when its own [imageData] is a data URI that decodes, its turn
    holds the block of its own image before its text, whatever the
    top-level image is and wherever the message stands;
    (4) when its own [imageData] is a non-empty string that does not
    decode, its turn holds its text alone: the top-level image does not
    stand in for it. *)
Theorem top_level_image_final_turn_only
    (msgs contents : list json) (top : json) (i : nat)
    (mk : list (str * json)) (r c own : json) :
  gemini_contents (JArr msgs) top = Ok contents ->
  nth_error msgs i = Some (JObj mk) ->
  lookup (py "role") mk = Some r ->
  lookup (py "content") mk = Some c ->
  py_get (JObj mk) (py "imageData") JNull = Ok own ->
  (truthy own = false -> S i = length msgs ->
   forall s mime data,
     top = JStr s -> match_data_uri s = Some (mime, data) ->
     nth_error contents i
     = Some (JObj [(py "role",
                    JStr (if eq_str r (py "user") then py "user"
                          else py "model"));
                   (py "parts",
                    JArr [inline_data mime data; text_part c])]))
  /\ (truthy own = false -> S i <> length msgs ->
      nth_error contents i
      = Some (JObj [(py "role",
                     JStr (if eq_str r (py "user") then py "user"
                           else py "model"));
                    (py "parts", JArr [text_part c])]))
  /\ (forall s mime data,
        own = JStr s -> match_data_uri s = Some (mime, data) ->
        nth_error contents i
        = Some (JObj [(py "role",
                       JStr (if eq_str r (py "user") then py "user"
                             else py "model"));
                      (py "parts",
                       JArr [inline_data mime data; text_part c])]))
  /\ (forall s,
        own = JStr s -> s <> [] -> match_data_uri s = None ->
        nth_error contents i
        = Some (JObj [(py "role",
                       JStr (if eq_str r (py "user") then py "user"
                             else py "model"));
                      (py "parts", JArr [text_part c])])).
Proof.
  intros Hcontents Hnth Hr Hc Hown.
  unfold gemini_contents in Hcontents; cbn [py_iter rbind] in Hcontents.
  destruct (chat_turns_nth _ _ _ _ _ _ _ Hcontents Hnth)
    as (turn & Hturn & Hbuilt).
  rewrite Hturn; clear Hturn.
  rewrite Nat.add_0_l, (chat_turn_object _ _ _ r c own mk Hr Hc Hown)
    in Hbuilt.
  unfold py_or in Hbuilt.
  split; [|split; [|split]].
  - intros Hfalsy Hlast s mime data -> Hmatch.
    assert (Hz : Z.eqb (Z.of_nat i) (Z.of_nat (length msgs) - 1) = true)
      by (apply Z.eqb_eq; lia).
    rewrite Hfalsy, Hz, (extract_image_data_uri _ _ _ Hmatch) in Hbuilt.
    cbn [rbind app] in Hbuilt; congruence.
  - intros Hfalsy Hnot.
    assert (Hz : Z.eqb (Z.of_nat i) (Z.of_nat (length msgs) - 1) = false)
      by (apply Z.eqb_neq; lia).
    rewrite Hfalsy, Hz in Hbuilt.
    cbn [extract_image truthy rbind app] in Hbuilt; congruence.
  - intros s mime data -> Hmatch.
    rewrite (data_uri_nonempty _ _ _ (match_data_uri_sound _ _ _ Hmatch))
      in Hbuilt.
    rewrite (extract_image_data_uri _ _ _ Hmatch) in Hbuilt.
    cbn [rbind app] in Hbuilt; congruence.
  - intros s -> Hne Hnone.
    assert (Ht : truthy (JStr s) = true)
      by (destruct s; [congruence | reflexivity]).
    rewrite Ht, (extract_image_no_match _ Hnone) in Hbuilt.
    cbn [rbind app] in Hbuilt; congruence.
Qed.

Lemma chat_turn_turn_of (n i : nat) (top msg turn : json) :
  chat_turn n top i msg = Ok turn -> turn_of msg turn.
Proof.
  unfold chat_turn.
  destruct (getitem msg (py "role")) as [r|] eqn:Hr; [|discriminate].
  destruct (py_get msg (py "imageData") JNull) as [own|] eqn:Hown;
    [|discriminate].
  cbn [rbind].
  destruct (extract_image _) as [img|] eqn:Himg; [|discriminate].
  destruct (getitem msg (py "content")) as [c|] eqn:Hc; [|discriminate].
  cbn [rbind]; intros [= <-].
  exists r, c, (if eq_str r (py "user") then py "user" else py "model"),
    (match img with Some b => [b] | None => [] end).
  repeat split; auto.
  - intros ->; reflexivity.
  - intros Hr'; destruct (eq_str r (py "user")) eqn:He; [|reflexivity].
    apply eq_str_true in He; contradiction.
  - destruct img as [b|]; [right | left; reflexivity].
    destruct (extract_image_some _ _ Himg) as (s & mime & data & _ & _ & ->).
    eauto.
  - intros s mime data Hs Hm.
    rewrite Hown in Hs; injection Hs as ->.
    pose proof (match_data_uri_sound _ _ _ Hm) as Hform.
    unfold py_or in Himg.
    rewrite (data_uri_nonempty _ _ _ Hform) in Himg.
    rewrite (extract_image_data_uri _ _ _ Hm) in Himg.
    injection Himg as <-; reflexivity.
Qed.

Lemma chat_turns_turn_of (n : nat) (top : json) (msgs : list json) :
  forall i contents,
    chat_turns n top i msgs = Ok contents -> Forall2 turn_of msgs contents.
Proof.
  induction msgs as [|msg rest IH]; intros i contents; simpl.
  - intros [= <-]; constructor.
  - destruct (chat_turn n top i msg) as [t|] eqn:Ht; [|discriminate].
    cbn [rbind].
    destruct (chat_turns n top (S i) rest) as [ts|] eqn:Hts; [|discriminate].
    intros [= <-]; constructor; eauto using chat_turn_turn_of.
Qed.

(** C7: when the chat payload is built, [contents] has one turn for each
    message, in the order of the messages; each turn has the role [user]
    for the role [user] and [model] for any other role; an inline image
    block, when there is one, comes before the text block. *)
Theorem contents_follow_messages
    (msgs contents : list json) (image_data : json) :
  gemini_contents (JArr msgs) image_data = Ok contents ->
  length contents = length msgs
  /\ Forall2 turn_of msgs contents
  /\ (forall i msg, nth_error msgs i = Some msg ->
        exists turn, nth_error contents i = Some turn /\ turn_of msg turn).
Proof.
  unfold gemini_contents; cbn [py_iter rbind]; intros H.
  pose proof (chat_turns_turn_of _ _ _ _ _ H) as HF.
  repeat split.
  - eapply chat_turns_length; eauto.
  - exact HF.
  - clear H; induction HF as [|m t ms ts Hmt _ IH]; intros [|i] msg; simpl;
      try discriminate.
    + intros [= <-]; eauto.
    + apply IH.
Qed.

(** ** The handlers *)

Section RelayProperties.

Variable time : Type.
Variable elapsed : time -> time -> Z.
Variable json_loads : str -> result json.
Variable decode_utf8 : bytes -> result str.
Variable exn_str : exn -> str.
Variable py_str : json -> str.
Variable E : env time.

Lemma warm_up_calls (w : world time) : calls (warm_up E w) = calls w.
Proof. reflexivity. Qed.

Lemma no_key_true : GOOGLE_API_KEY E = [] -> no_key E = true.
Proof. unfold no_key; intros ->; reflexivity. Qed.

Lemma no_key_false : GOOGLE_API_KEY E <> [] -> no_key E = false.
Proof. unfold no_key; destruct (GOOGLE_API_KEY E); congruence. Qed.

(** C5: without a credential no endpoint calls the provider: no handler
    makes a call and none returns an event stream, whose generator would
    make one.  Every POST request is answered with the configuration
    error, status 500. *)
Theorem missing_key_fails_fast
    (ep : endpoint) (req : request) (w : world time) :
  GOOGLE_API_KEY E = [] ->
  calls (snd (handle json_loads exn_str py_str E ep req w)) = calls w
  /\ (forall contents system_prompt,
        fst (handle json_loads exn_str py_str E ep req w)
        <> EventStream contents system_prompt)
  /\ (method req = POST ->
      fst (handle json_loads exn_str py_str E ep req w)
      = Json (JObj [(py "error", JStr (py "GOOGLE_API_KEY not configured"))])
             500).
Proof.
  intros Hkey; pose proof (no_key_true Hkey) as Hno.
  destruct ep; unfold handle, chat, generate_image, web_search, map_search;
    destruct (method req); rewrite ?Hno; cbn [fst snd];
    (split; [reflexivity | split; [discriminate|]]);
    solve [reflexivity | discriminate | intros _; reflexivity].
Qed.

(** C8: with a credential, a POST request to generate-image whose JSON
    object has no [prompt], or the empty string as [prompt], is answered
    with status 400 and the provider is not called. *)
Theorem missing_prompt_is_client_error
    (req : request) (w : world time) (kvs : list (str * json)) :
  method req = POST ->
  GOOGLE_API_KEY E <> [] ->
  request_json req = Ok (JObj kvs) ->
  lookup (py "prompt") kvs = None
    \/ lookup (py "prompt") kvs = Some (JStr []) ->
  fst (generate_image exn_str py_str E req w)
    = Json (JObj [(py "error", JStr (py "Prompt is required"))]) 400
  /\ calls (snd (generate_image exn_str py_str E req w)) = calls w.
Proof.
  intros Hm Hkey Hjson Hprompt.
  unfold generate_image; rewrite Hm, (no_key_false Hkey).
  unfold try_except, generate_image_body, bind, lift.
  rewrite Hjson; unfold py_get.
  destruct Hprompt as [-> | ->]; split; reflexivity.
Qed.

(** The status of a buffered endpoint after the provider was called. *)
Lemma web_search_result_status (resp : http_response) (r : response) :
  web_search_result resp = Ok r -> status_of r = 200%Z \/ status_of r = 500%Z.
Proof.
  unfold web_search_result.
  destruct (response_json resp) as [res|]; [|discriminate]; cbn [rbind].
  destruct (has_candidates res) as [[|]|]; try discriminate; cbn [rbind].
  - destruct (first_text res); [|discriminate].
    intros [= <-]; left; reflexivity.
  - intros [= <-]; right; reflexivity.
Qed.

Lemma map_data_of_status (content : json) :
  status_of (map_data_of json_loads content) = 200%Z.
Proof.
  destruct content; try reflexivity.
  unfold map_data_of, map_data_of_text.
  destruct (fence_extract s) as [inner|]; [|reflexivity].
  destruct (json_loads (strip inner)) as [v|]; [|reflexivity].
  cbn [rbind]; destruct (py_get v (py "message") (JStr [])); reflexivity.
Qed.

Lemma map_search_result_status (resp : http_response) (r : response) :
  map_search_result json_loads resp = Ok r ->
  status_of r = 200%Z \/ status_of r = 500%Z.
Proof.
  unfold map_search_result.
  destruct (response_json resp) as [res|]; [|discriminate]; cbn [rbind].
  destruct (has_candidates res) as [[|]|]; try discriminate; cbn [rbind].
  - destruct (first_text res) as [c|]; [|discriminate].
    intros [= <-]; left; apply map_data_of_status.
  - intros [= <-]; right; reflexivity.
Qed.

(** C10: with a credential, a POST request to web-search or map-search
    whose JSON object has no [query], or the empty string as [query], calls
    the provider once, with nothing after the colon of the instruction
    text, and the answer never has status 400. *)
Theorem empty_query_is_forwarded
    (req : request) (w : world time) (kvs : list (str * json)) :
  method req = POST ->
  GOOGLE_API_KEY E <> [] ->
  request_json req = Ok (JObj kvs) ->
  lookup (py "query") kvs = None
    \/ lookup (py "query") kvs = Some (JStr []) ->
  (calls (snd (web_search exn_str py_str E req w))
   = calls w ++
     [{| call_url := search_url E;
         call_payload :=
           JObj [(py "contents",
                  JArr [JObj [(py "parts",
                    JArr [text_part (JStr
                      (py "Search and provide detailed information about: "))])]]);
                 (py "tools", JArr [JObj [(py "googleSearch", JObj [])]]);
                 (py "generationConfig",
                  JObj [(py "temperature", JFloat float_0_3);
                        (py "maxOutputTokens", JInt 4096)])];
         call_stream := false |}]
   /\ status_of (fst (web_search exn_str py_str E req w)) <> 400%Z)
  /\ (calls (snd (map_search json_loads exn_str py_str E req w))
      = calls w ++
        [{| call_url := search_url E;
            call_payload :=
              JObj [(py "contents",
                     JArr [JObj [(py "parts",
                       JArr [text_part (JStr
                         (py "Find location information for: "))])]]);
                    (py "systemInstruction",
                     JObj [(py "parts",
                            JArr [text_part (JStr map_system_prompt)])]);
                    (py "generationConfig",
                     JObj [(py "temperature", JFloat float_0_2);
                           (py "maxOutputTokens", JInt 2048)])];
            call_stream := false |}]
      /\ status_of (fst (map_search json_loads exn_str py_str E req w))
         <> 400%Z).
Proof.
  intros Hm Hkey Hjson Hquery.
  assert (Hq : py_get (JObj kvs) (py "query") (JStr []) = Ok (JStr [])).
  { unfold py_get; destruct Hquery as [-> | ->]; reflexivity. }
  unfold web_search, map_search; rewrite Hm, (no_key_false Hkey).
  unfold try_except, web_search_body, map_search_body, bind, lift,
    requests_post, ret.
  rewrite Hjson, Hq.
  unfold web_search_payload, map_search_payload, fmt.
  rewrite !app_nil_r.
  split.
  - destruct (upstream E _) as [e|resp]; [split; [reflexivity|discriminate]|].
    destruct (ok resp); cbn [negb];
      [|split; [reflexivity|discriminate]].
    destruct (web_search_result resp) as [r|] eqn:Hr;
      (split; [reflexivity|]); [|discriminate].
    destruct (web_search_result_status _ _ Hr) as [H|H]; cbn [fst]; rewrite H;
      discriminate.
  - destruct (upstream E _) as [e|resp]; [split; [reflexivity|discriminate]|].
    destruct (ok resp); cbn [negb];
      [|split; [reflexivity|discriminate]].
    destruct (map_search_result json_loads resp) as [r|] eqn:Hr;
      (split; [reflexivity|]); [|discriminate].
    destruct (map_search_result_status _ _ Hr) as [H|H]; cbn [fst]; rewrite H;
      discriminate.
Qed.

(** C4, amended: with a credential, for a POST request to generate-image
    whose prompt is a non-empty string, the one call to the provider
    carries the inline image block followed by [Edit this image: <prompt>]
    when [imageData] is a data URI that the pattern decodes, and carries
    only [Generate an image: <prompt>] when [imageData] is absent, falsy
    (null, false, zero, an empty string, list or object) or a string that
    the pattern does not decode.  When [imageData] is truthy and not a
    string, no payload is built: the answer has status 500 and the
    provider is not called. *)
Theorem image_request_edit_or_generate
    (req : request) (w : world time) (kvs : list (str * json))
    (prompt : str) (image : json) :
  method req = POST ->
  GOOGLE_API_KEY E <> [] ->
  request_json req = Ok (JObj kvs) ->
  lookup (py "prompt") kvs = Some (JStr prompt) ->
  prompt <> [] ->
  py_get (JObj kvs) (py "imageData") JNull = Ok image ->
  (forall s mime data,
     image = JStr s -> match_data_uri s = Some (mime, data) ->
     calls (snd (generate_image exn_str py_str E req w))
     = calls w ++
       [{| call_url := image_url E;
           call_payload :=
             image_payload
               [inline_data mime data;
                text_part (JStr (py "Edit this image: " ++ prompt))];
           call_stream := false |}])
  /\ (truthy image = false
      \/ (exists s, image = JStr s /\ match_data_uri s = None) ->
      calls (snd (generate_image exn_str py_str E req w))
      = calls w ++
        [{| call_url := image_url E;
            call_payload :=
              image_payload
                [text_part (JStr (py "Generate an image: " ++ prompt))];
            call_stream := false |}])
  /\ (truthy image = true -> (forall s, image <> JStr s) ->
      generate_image exn_str py_str E req w
      = (Json (JObj [(py "error", JStr (exn_str AttributeError))]) 500,
         warm_up E w)).
Proof.
  intros Hm Hkey Hjson Hprompt Hne Himage.
  assert (Hp : py_get (JObj kvs) (py "prompt") (JStr []) = Ok (JStr prompt)).
  { unfold py_get; rewrite Hprompt; reflexivity. }
  assert (Ht : truthy (JStr prompt) = true).
  { destruct prompt; [congruence | reflexivity]. }
  assert (Hcalls : forall parts is_edit,
    image_parts prompt image = Ok (parts, is_edit) ->
    calls (snd (generate_image exn_str py_str E req w))
    = calls w ++ [{| call_url := image_url E;
                     call_payload := image_payload parts;
                     call_stream := false |}]).
  { intros parts is_edit Hparts.
    unfold generate_image; rewrite Hm, (no_key_false Hkey).
    unfold try_except, generate_image_body, bind, lift, requests_post, ret.
    rewrite Hjson, Hp, Himage, Ht; cbn [negb fmt]; rewrite Hparts.
    destruct (upstream E _) as [e|resp]; [reflexivity|].
    destruct (ok resp); cbn [negb]; [|reflexivity].
    destruct (image_result py_str is_edit resp); reflexivity. }
  split; [|split].
  - intros s mime data -> Hmatch.
    apply Hcalls with (is_edit := true).
    unfold image_parts; rewrite (extract_image_data_uri _ _ _ Hmatch).
    reflexivity.
  - intros Hnone.
    apply Hcalls with (is_edit := false).
    unfold image_parts.
    destruct Hnone as [Hfalsy | (s & -> & Hmatch)];
      [rewrite (extract_image_falsy _ Hfalsy)
      |rewrite (extract_image_no_match _ Hmatch)]; reflexivity.
  - intros Htruthy Hnot.
    unfold generate_image; rewrite Hm, (no_key_false Hkey).
    unfold try_except, generate_image_body, bind, lift, requests_post, ret.
    rewrite Hjson, Hp, Himage, Ht; cbn [negb fmt].
    unfold image_parts, extract_image; rewrite Htruthy.
    destruct image; try reflexivity.
    exfalso; eapply Hnot; reflexivity.
Qed.

(** C9: the health endpoint stores the first clock reading of the call as
    the liveness timestamp and reports the whole seconds between that
    reading and the second reading of the same call.  The report is the
    same whatever timestamp was stored before the call. *)
Theorem health_reports_time_within_call (w : world time) (before : time) :
  health_check elapsed E w
  = (Json (JObj [(py "status", JStr (py "ok"));
                 (py "service", JStr (py "lepen-ai-backend"));
                 (py "uptime_seconds",
                  JInt (elapsed (clock E (S (ticks w))) (clock E (ticks w))));
                 (py "ready", JBool true)]) 200,
     {| last_request_time := clock E (ticks w);
        ticks := S (S (ticks w));
        calls := calls w |})
  /\ fst (health_check elapsed E
            {| last_request_time := before;
               ticks := ticks w;
               calls := calls w |})
     = fst (health_check elapsed E w).
Proof. split; reflexivity. Qed.

(** ** The chat stream *)

Ltac step_result :=
  match goal with
  | |- context [rbind ?c _] =>
      destruct c; cbn [rbind]; try (constructor; fail)
  | |- context [if ?b then _ else _] => destruct b
  end.

Lemma relay_chunk_deltas (chunk : str) :
  Forall is_delta (relay_chunk json_loads chunk).
Proof.
  unfold relay_chunk.
  repeat step_result; try constructor; try constructor.
  eexists; reflexivity.
Qed.

Lemma relay_line_deltas (line : bytes) (events : list sse) :
  relay_line json_loads decode_utf8 line = Ok events ->
  Forall is_delta events.
Proof.
  unfold relay_line.
  destruct line as [|b line]; [intros [= <-]; constructor|].
  destruct (decode_utf8 (b :: line)) as [line_str|]; [|discriminate].
  cbn [rbind].
  destruct (startswith line_str (py "data: ")); intros [= <-];
    [apply relay_chunk_deltas | constructor].
Qed.

Lemma relay_lines_deltas (lines : list bytes) :
  Forall is_delta (fst (relay_lines json_loads decode_utf8 lines)).
Proof.
  induction lines as [|line rest IH]; simpl; [constructor|].
  destruct (relay_line json_loads decode_utf8 line) as [events|] eqn:Hl;
    [|constructor].
  destruct (relay_lines json_loads decode_utf8 rest) as [more raised].
  simpl in *; apply Forall_app; split; [|exact IH].
  eapply relay_line_deltas; eauto.
Qed.

Lemma count_done_deltas (events : list sse) (last : sse) :
  Forall is_delta events ->
  count_done (events ++ [last]) = count_done [last].
Proof.
  induction 1 as [|e events [c ->] _ IH]; [reflexivity | exact IH].
Qed.

(** C1, amended: the chat stream is zero or more delta events followed by
    exactly one final event.  The final event is [data: [DONE]] when the
    provider answers with a success status and the iteration over its lines
    ends without an exception; it is an error event, and the stream holds
    no [data: [DONE]] at all, when the call raises, when the status is not a
    success (the stream is then the error event alone), and when the
    iteration raises.  The provider is called once. *)
Theorem chat_stream_shape
    (contents : list json) (system_prompt : str) (w : world time) :
  exists deltas last,
    fst (generate json_loads decode_utf8 exn_str E contents system_prompt w)
      = deltas ++ [last]
    /\ Forall is_delta deltas
    /\ match upstream E {| call_url := chat_url E;
                           call_payload := chat_payload contents system_prompt;
                           call_stream := true |} with
       | PostRaises e => deltas = [] /\ last = error_event (exn_str e)
       | PostReturns resp =>
           if ok resp then
             match snd (relay_lines json_loads decode_utf8 (iter_lines resp)),
                   iter_raises resp with
             | None, None => last = SseDone
             | Some e, _ => last = error_event (exn_str e)
             | None, Some e => last = error_event (exn_str e)
             end
           else deltas = [] /\ last = error_event (py "AI API error")
       end
    /\ count_done
         (fst (generate json_loads decode_utf8 exn_str E contents
                 system_prompt w))
       = match last with SseDone => 1 | SseData _ => 0 end
    /\ calls
         (snd (generate json_loads decode_utf8 exn_str E contents
                 system_prompt w))
       = calls w ++ [{| call_url := chat_url E;
                        call_payload := chat_payload contents system_prompt;
                        call_stream := true |}].
Proof.
  unfold generate, requests_post.
  destruct (upstream E _) as [e|resp].
  - exists [], (error_event (exn_str e)); repeat split; constructor.
  - destruct (ok resp); cbn [negb].
    + pose proof (relay_lines_deltas (iter_lines resp)) as Hd.
      destruct (relay_lines json_loads decode_utf8 (iter_lines resp))
        as [events [e|]]; cbn [fst snd] in *.
      * exists events, (error_event (exn_str e)); cbn [fst snd].
        rewrite count_done_deltas by assumption; repeat split; auto.
      * destruct (iter_raises resp) as [e|].
        -- exists events, (error_event (exn_str e)); cbn [fst snd].
           rewrite count_done_deltas by assumption; repeat split; auto.
        -- exists events, SseDone; cbn [fst snd].
           rewrite count_done_deltas by assumption; repeat split; auto.
    + exists [], (error_event (py "AI API error")); repeat split; constructor.
Qed.

End RelayProperties.

(** ** Map search: the fenced block *)

Lemma break_on_sound (sep : str) (s a b : str) :
  break_on sep s = Some (a, b) -> s = a ++ sep ++ b.
Proof.
  revert a; induction s as [|c s IH]; intros a; simpl.
  - destruct (strip_prefix sep []) as [r|] eqn:Hp; [|discriminate].
    intros [= <- <-]; apply strip_prefix_inv in Hp; exact Hp.
  - destruct (strip_prefix sep (c :: s)) as [r|] eqn:Hp.
    + intros [= <- <-]; apply strip_prefix_inv in Hp; exact Hp.
    + destruct (break_on sep s) as [[a' b']|]; [|discriminate].
      intros [= <- <-]; rewrite (IH a' eq_refl); reflexivity.
Qed.

Lemma break_on_shorter (sep : str) (s a b : str) :
  sep <> [] -> break_on sep s = Some (a, b) -> length b < length s.
Proof.
  intros Hsep H; apply break_on_sound in H; subst s.
  rewrite !length_app.
  destruct sep; [congruence | simpl; lia].
Qed.

Lemma split_fuel_enough (sep : str) :
  sep <> [] ->
  forall n m s, length s < n -> length s < m ->
    split_fuel n sep s = split_fuel m sep s.
Proof.
  intros Hsep; induction n as [|n IH]; intros [|m] s Hn Hm; try lia.
  simpl; destruct (break_on sep s) as [[a b]|] eqn:Hb; [|reflexivity].
  pose proof (break_on_shorter _ _ _ _ Hsep Hb).
  f_equal; apply IH; lia.
Qed.

Lemma split_break (sep s : str) :
  sep <> [] ->
  split sep s = match break_on sep s with
                | None => [s]
                | Some (a, b) => a :: split sep b
                end.
Proof.
  intros Hsep; unfold split.
  change (split_fuel (S (length s)) sep s)
    with (match break_on sep s with
          | None => [s]
          | Some (a, b) => a :: split_fuel (length s) sep b
          end).
  destruct (break_on sep s) as [[a b]|] eqn:Hb; [|reflexivity].
  pose proof (break_on_shorter _ _ _ _ Hsep Hb).
  f_equal; apply split_fuel_enough; auto; lia.
Qed.

Lemma strip_prefix_longer (p x y r : str) :
  strip_prefix p x = Some r -> strip_prefix p (x ++ y) = Some (r ++ y).
Proof.
  intros H; apply strip_prefix_inv in H; subst x.
  rewrite <- app_assoc; apply strip_prefix_app.
Qed.

(** The text before the first occurrence holds no occurrence. *)
Lemma break_on_before (sep : str) (s a b : str) :
  sep <> [] -> break_on sep s = Some (a, b) -> break_on sep a = None.
Proof.
  intros Hsep; revert a; induction s as [|c s IH]; intros a; simpl.
  - destruct (strip_prefix sep []); [|discriminate].
    intros [= <- <-]; destruct sep; [congruence | reflexivity].
  - destruct (strip_prefix sep (c :: s)) as [r|] eqn:Hp.
    + intros [= <- <-]; destruct sep; [congruence | reflexivity].
    + destruct (break_on sep s) as [[a' b']|] eqn:Hb; [|discriminate].
      intros [= <- <-].
      pose proof (break_on_sound _ _ _ _ Hb) as Hs.
      simpl; rewrite (IH a' eq_refl).
      destruct (strip_prefix sep (c :: a')) as [r|] eqn:Hp'; [|reflexivity].
      apply strip_prefix_longer with (y := sep ++ b') in Hp'.
      simpl in Hp', Hp; rewrite <- Hs, Hp in Hp'; discriminate.
Qed.

Lemma contains_app (p q s : str) :
  contains (p ++ q) s = true -> contains p s = true.
Proof.
  unfold contains; induction s as [|c s IH]; simpl.
  - destruct (strip_prefix (p ++ q) []) as [r|] eqn:Hp; [|discriminate].
    apply strip_prefix_inv in Hp.
    destruct p; [reflexivity | discriminate].
  - destruct (strip_prefix (p ++ q) (c :: s)) as [r|] eqn:Hp.
    + apply strip_prefix_inv in Hp; rewrite Hp, <- app_assoc.
      rewrite strip_prefix_app; reflexivity.
    + destruct (strip_prefix p (c :: s)); [reflexivity|].
      destruct (break_on (p ++ q) s) as [[a b]|]; [|discriminate].
      destruct (break_on p s) as [[a' b']|]; [reflexivity|].
      intros _; discriminate (IH eq_refl).
Qed.

Lemma contains_false (sep s : str) :
  contains sep s = false -> break_on sep s = None.
Proof.
  unfold contains; destruct (break_on sep s); [discriminate | reflexivity].
Qed.

Lemma fence_not_empty : fence <> [].
Proof. discriminate. Qed.

Lemma fence_json_not_empty : fence_json <> [].
Proof. discriminate. Qed.

Lemma split_nonempty (sep s : str) :
  sep <> [] -> exists x l, split sep s = x :: l.
Proof.
  intros Hsep; rewrite (split_break _ _ Hsep).
  destruct (break_on sep s) as [[a b]|]; eauto.
Qed.

(** The two tests for a fence never fail with an index error. *)
Lemma fence_extract_total (content : str) :
  exists inner, fence_extract content = Ok inner.
Proof.
  assert (Hsecond : forall sep, sep <> [] -> contains sep content = true ->
            exists a, py_nth (split sep content) 1 = Ok a).
  { intros sep Hsep Hc; unfold contains in Hc.
    rewrite (split_break _ _ Hsep).
    destruct (break_on sep content) as [[a b]|]; [|discriminate].
    destruct (split_nonempty sep b Hsep) as (x & l & ->).
    exists x; reflexivity. }
  assert (Hfirst : forall a, exists x, py_nth (split fence a) 0 = Ok x).
  { intros a; destruct (split_nonempty fence a fence_not_empty) as (x & l & ->).
    exists x; reflexivity. }
  unfold fence_extract.
  destruct (contains fence_json content) eqn:Hj.
  - destruct (Hsecond _ fence_json_not_empty Hj) as (a & ->); apply Hfirst.
  - destruct (contains fence content) eqn:Hf; [|eauto].
    destruct (Hsecond _ fence_not_empty Hf) as (a & ->); apply Hfirst.
Qed.

Lemma fence_extract_fenced (text body : str) :
  fenced text body -> fence_extract text = Ok body.
Proof.
  unfold fence_extract.
  intros [(pre & rest & post & Hj & Hf)
         |(pre & rest & post & Hnj & Hf & Hf')].
  - unfold contains at 1; rewrite Hj.
    rewrite (split_break _ _ fence_json_not_empty), Hj.
    assert (Hpiece : py_nth (pre :: split fence_json rest) 1
                     = Ok (up_to fence_json rest)).
    { rewrite (split_break _ rest fence_json_not_empty); unfold up_to.
      destruct (break_on fence_json rest) as [[a b]|]; reflexivity. }
    rewrite Hpiece; cbn [rbind].
    rewrite (split_break _ _ fence_not_empty), Hf; reflexivity.
  - rewrite Hnj; unfold contains; rewrite Hf.
    rewrite (split_break _ _ fence_not_empty), Hf.
    rewrite (split_break _ rest fence_not_empty), Hf'.
    cbn [py_nth nth_error rbind].
    rewrite (split_break _ _ fence_not_empty),
      (break_on_before _ _ _ _ fence_not_empty Hf'); reflexivity.
Qed.

Lemma fence_extract_plain (text : str) :
  contains fence text = false -> fence_extract text = Ok text.
Proof.
  intros Hf; unfold fence_extract.
  destruct (contains fence_json text) eqn:Hj.
  - apply (contains_app fence (py "json")) in Hj; congruence.
  - rewrite Hf; reflexivity.
Qed.

Lemma fenced_decomposition (text body : str) :
  fenced text body ->
  exists pre post,
    text = pre ++ fence_json ++ body ++ fence ++ post
    \/ text = pre ++ fence ++ body ++ fence ++ post.
Proof.
  intros [(pre & rest & post & Hj & Hf)
         |(pre & rest & post & _ & Hf & Hf')].
  - apply break_on_sound in Hj, Hf; subst text.
    unfold up_to in Hf.
    destruct (break_on fence_json rest) as [[a b]|] eqn:Hr.
    + apply break_on_sound in Hr; subst rest a.
      exists pre, (post ++ fence_json ++ b); left.
      rewrite <- !app_assoc; reflexivity.
    + subst rest; exists pre, post; left; reflexivity.
  - apply break_on_sound in Hf, Hf'; subst.
    exists pre, post; right; reflexivity.
Qed.

Section MapSearchProperties.

Variable time : Type.
Variable json_loads : str -> result json.
Variable exn_str : exn -> str.
Variable py_str : json -> str.
Variable E : env time.

(** The answer of map-search once the provider has returned a first
    candidate whose text is the string [text]. *)
Lemma map_search_first_text
    (req : request) (w : world time) (kvs : list (str * json))
    (resp : http_response) (res : json) (text : str) :
  method req = POST ->
  GOOGLE_API_KEY E <> [] ->
  request_json req = Ok (JObj kvs) ->
  upstream E
    {| call_url := search_url E;
       call_payload :=
         map_search_payload py_str
           (match lookup (py "query") kvs with
            | Some q => q
            | None => JStr []
            end);
       call_stream := false |} = PostReturns resp ->
  ok resp = true ->
  response_json resp = Ok res ->
  has_candidates res = Ok true ->
  first_text res = Ok (JStr text) ->
  fst (map_search json_loads exn_str py_str E req w)
  = map_data_of_text json_loads text.
Proof.
  intros Hm Hkey Hjson Hup Hok Hres Hcands Htext.
  unfold map_search; rewrite Hm.
  unfold no_key; destruct (GOOGLE_API_KEY E) eqn:Hk; [congruence|].
  unfold try_except, map_search_body, bind, lift, requests_post, ret.
  rewrite Hjson; unfold py_get.
  rewrite Hup, Hok; cbn [negb].
  unfold map_search_result.
  rewrite Hres; cbn [rbind]; rewrite Hcands; cbn [rbind].
  rewrite Htext; reflexivity.
Qed.

(** C3, amended: when the text of the first candidate wraps a block in
    fence markers ([fenced]: after the first json-tagged fence when the
    text has one, otherwise after the first plain fence; up to the next
    fence, which closes the block before any further json-tagged fence
    starts) and the block, stripped of surrounding white space, is the
    JSON text of an object, the endpoint returns that object as
    [mapData], with its [message] as [content].  When the stripped block
    is not valid JSON, or is valid JSON that is not an object, the endpoint
    returns, without raising, [{content: <block>}]: the text between the
    fence markers, before stripping, and not the whole candidate text. *)
Theorem fenced_map_data
    (req : request) (w : world time) (kvs : list (str * json))
    (resp : http_response) (res : json) (text body : str) :
  method req = POST ->
  GOOGLE_API_KEY E <> [] ->
  request_json req = Ok (JObj kvs) ->
  upstream E
    {| call_url := search_url E;
       call_payload :=
         map_search_payload py_str
           (match lookup (py "query") kvs with
            | Some q => q
            | None => JStr []
            end);
       call_stream := false |} = PostReturns resp ->
  ok resp = true ->
  response_json resp = Ok res ->
  has_candidates res = Ok true ->
  first_text res = Ok (JStr text) ->
  fenced text body ->
  (exists pre post,
     text = pre ++ fence_json ++ body ++ fence ++ post
     \/ text = pre ++ fence ++ body ++ fence ++ post)
  /\ (forall o,
     json_loads (strip body) = Ok (JObj o) ->
     fst (map_search json_loads exn_str py_str E req w)
     = Json (JObj [(py "mapData", JObj o);
                   (py "content",
                    match lookup (py "message") o with
                    | Some m => m
                    | None => JStr []
                    end)]) 200)
  /\ (forall e,
        json_loads (strip body) = Raise e ->
        fst (map_search json_loads exn_str py_str E req w)
        = Json (JObj [(py "content", JStr body)]) 200)
  /\ (forall v,
        json_loads (strip body) = Ok v -> (forall o, v <> JObj o) ->
        fst (map_search json_loads exn_str py_str E req w)
        = Json (JObj [(py "content", JStr body)]) 200).
Proof.
  intros Hm Hkey Hjson Hup Hok Hres Hcands Htext Hfenced.
  rewrite (map_search_first_text req w kvs resp res text) by assumption.
  unfold map_data_of_text.
  rewrite (fence_extract_fenced _ _ Hfenced).
  split; [|split; [|split]].
  - apply fenced_decomposition; assumption.
  - intros o ->; reflexivity.
  - intros e ->; reflexivity.
  - intros v -> Hv; cbn [rbind].
    destruct v; try reflexivity.
    exfalso; eapply Hv; reflexivity.
Qed.

(** Without any fence the candidate text itself is parsed, and the
    fallback is that same text. *)
Lemma unfenced_map_data (text : str) :
  contains fence text = false ->
  (forall e,
     json_loads (strip text) = Raise e ->
     map_data_of_text json_loads text = content_only (JStr text)).
Proof.
  intros Hf e He; unfold map_data_of_text.
  rewrite (fence_extract_plain _ Hf), He; reflexivity.
Qed.

End MapSearchProperties.

(** * Examples *)

(** C1, as stated, fails: when the provider answers with a non-success
    status the stream is the error event alone, and when the connection
    breaks after a chunk the stream ends with the error event; neither
    stream holds [data: [DONE]]. *)
Lemma failed_stream_has_no_done :
  fst (generate example_loads example_decode example_exn_str
         (example_env (py "key") provider_unavailable)
         [] chat_system_prompt example_world)
  = [error_event (py "AI API error")]
  /\ fst (generate example_loads example_decode example_exn_str
            (example_env (py "key") provider_breaks)
            [] chat_system_prompt example_world)
     = [delta_event (JStr (py "Hi")); error_event (py "Connection broken")]
  /\ count_done
       (fst (generate example_loads example_decode example_exn_str
               (example_env (py "key") provider_unavailable)
               [] chat_system_prompt example_world)) = 0
  /\ count_done
       (fst (generate example_loads example_decode example_exn_str
               (example_env (py "key") provider_breaks)
               [] chat_system_prompt example_world)) = 0.
Proof. repeat split; vm_compute; reflexivity. Qed.

(** On success the stream ends with the sentinel. *)
Example successful_stream :
  fst (generate example_loads example_decode example_exn_str
         (example_env (py "key") provider_streams)
         [] chat_system_prompt example_world)
  = [delta_event (JStr (py "Hi")); SseDone].
Proof. vm_compute; reflexivity. Qed.

(** C3, as stated, fails in three ways.  (1) The candidate text is a
    json-tagged fenced block that is not JSON: the endpoint answers with
    the text between the fence markers, which is not the candidate text.
    (2) The candidate text wraps a JSON object in a plain fenced block and
    goes on with a json-tagged block that is not JSON: the json-tagged
    block is the one parsed, and no [mapData] is returned.  (3) The fenced
    block is valid JSON, a list: no [mapData] is returned either. *)
Lemma fallback_is_the_block :
  example_loads (strip ([LF] ++ py "not json" ++ [LF])) = Raise ValueError
  /\ fst (map_search example_loads example_exn_str example_py_str
            (example_env (py "key") (provider_says fenced_prose))
            (post_json (JObj [(py "query", JStr (py "Paris"))]))
            example_world)
     = Json (JObj [(py "content", JStr ([LF] ++ py "not json" ++ [LF]))]) 200
  /\ Json (JObj [(py "content", JStr ([LF] ++ py "not json" ++ [LF]))]) 200
     <> Json (JObj [(py "content", JStr fenced_prose)]) 200
  /\ fst (map_search example_loads example_exn_str example_py_str
            (example_env (py "key")
               (provider_says plain_object_then_tagged_prose))
            (post_json (JObj [(py "query", JStr (py "Paris"))]))
            example_world)
     = Json (JObj [(py "content", JStr ([LF] ++ py "not json" ++ [LF]))]) 200
  /\ example_loads_list (strip ([LF] ++ py "[1, 2]" ++ [LF]))
     = Ok (JArr [JInt 1; JInt 2])
  /\ fst (map_search example_loads_list example_exn_str example_py_str
            (example_env (py "key") (provider_says fenced_list))
            (post_json (JObj [(py "query", JStr (py "Paris"))]))
            example_world)
     = Json (JObj [(py "content", JStr ([LF] ++ py "[1, 2]" ++ [LF]))]) 200.
Proof.
  split; [reflexivity|]; split; [vm_compute; reflexivity|].
  split; [vm_compute; discriminate|].
  repeat split; vm_compute; reflexivity.
Qed.

Lemma not_in_image_png : ~ In semicolon (py "image/png").
Proof.
  cbv; intros H.
  repeat (destruct H as [H|H]; [discriminate H|]); exact H.
Qed.

Lemma not_in_payload : ~ In LF (py "iVBORw0KGgo=").
Proof.
  cbv; intros H.
  repeat (destruct H as [H|H]; [discriminate H|]); exact H.
Qed.

(** A PNG data URI is decoded; a web address is passed over. *)
Lemma data_uri_image_extraction_witness :
  extract_image (JStr (py "data:image/png;base64,iVBORw0KGgo="))
    = Ok (Some (inline_data (py "image/png") (py "iVBORw0KGgo=")))
  /\ extract_image (JStr (py "https://example.com/cat.png")) = Ok None.
Proof.
  destruct (data_uri_image_extraction
              (py "image/png") (py "iVBORw0KGgo=")
              (py "https://example.com/cat.png") (py "make it blue")
              2 0 JNull (JStr (py "user")) (JStr (py "What is this?"))
              example_user_turn)
    as (_ & H1 & _ & _ & H2 & _).
  - discriminate.
  - exact not_in_image_png.
  - discriminate.
  - exact not_in_payload.
  - intros m p _ H; simpl in H; discriminate H.
  - reflexivity.
  - reflexivity.
  - split; [exact H1 | exact H2].
Defined.

(** In a conversation of two turns, the top-level image becomes the image
    of the second turn, which has none of its own. *)
Lemma top_level_image_final_turn_only_witness :
  exists contents,
    gemini_contents (JArr example_messages)
      (JStr (py "data:image/gif;base64,R0lGOD"))
    = Ok contents
    /\ nth_error contents 1
       = Some (JObj [(py "role", JStr (py "model"));
                     (py "parts",
                      JArr [inline_data (py "image/gif") (py "R0lGOD");
                            text_part (JStr (py "A cat."))])]).
Proof.
  pose (c := match gemini_contents (JArr example_messages)
                     (JStr (py "data:image/gif;base64,R0lGOD")) with
             | Ok c => c
             | Raise _ => []
             end).
  assert (H : gemini_contents (JArr example_messages)
                (JStr (py "data:image/gif;base64,R0lGOD")) = Ok c)
    by reflexivity.
  exists c; split; [exact H|].
  destruct (top_level_image_final_turn_only
              example_messages c (JStr (py "data:image/gif;base64,R0lGOD"))
              1 example_assistant_turn
              (JStr (py "assistant")) (JStr (py "A cat.")) JNull
              H eq_refl eq_refl eq_refl eq_refl) as (Hlast & _).
  exact (Hlast eq_refl eq_refl (py "data:image/gif;base64,R0lGOD")
           (py "image/gif") (py "R0lGOD") eq_refl eq_refl).
Defined.

(** The example conversation is translated turn by turn. *)
Lemma contents_follow_messages_witness :
  exists contents,
    gemini_contents (JArr example_messages) JNull = Ok contents
    /\ length contents = 2
    /\ Forall2 turn_of example_messages contents.
Proof.
  pose (c := match gemini_contents (JArr example_messages) JNull with
             | Ok c => c
             | Raise _ => []
             end).
  assert (H : gemini_contents (JArr example_messages) JNull = Ok c)
    by reflexivity.
  exists c; split; [exact H|].
  destruct (contents_follow_messages example_messages c JNull H)
    as (Hlen & Hall & _).
  split; [exact Hlen | exact Hall].
Defined.

(** Map search without a credential. *)
Lemma missing_key_fails_fast_witness :
  GOOGLE_API_KEY (example_env [] provider_unavailable) = []
  /\ fst (handle example_loads example_exn_str example_py_str
            (example_env [] provider_unavailable) ApiMapSearch
            (post_json (JObj [(py "query", JStr (py "Paris"))]))
            example_world)
     = Json (JObj [(py "error", JStr (py "GOOGLE_API_KEY not configured"))])
            500.
Proof.
  split; [reflexivity|].
  destruct (missing_key_fails_fast Z example_loads example_exn_str
              example_py_str (example_env [] provider_unavailable)
              ApiMapSearch
              (post_json (JObj [(py "query", JStr (py "Paris"))]))
              example_world eq_refl) as (_ & _ & Hpost).
  apply Hpost; reflexivity.
Defined.

(** An image request that carries an image and no prompt. *)
Lemma missing_prompt_is_client_error_witness :
  fst (generate_image example_exn_str example_py_str
         (example_env (py "key") provider_unavailable)
         (post_json (JObj [(py "imageData", JStr example_image)]))
         example_world)
  = Json (JObj [(py "error", JStr (py "Prompt is required"))]) 400.
Proof.
  apply (missing_prompt_is_client_error Z example_exn_str example_py_str
           (example_env (py "key") provider_unavailable)
           (post_json (JObj [(py "imageData", JStr example_image)]))
           example_world [(py "imageData", JStr example_image)]).
  - reflexivity.
  - discriminate.
  - reflexivity.
  - left; reflexivity.
Defined.

(** A web search for the empty string reaches the provider. *)
Lemma empty_query_is_forwarded_witness :
  length
    (calls (snd (web_search example_exn_str example_py_str
                   (example_env (py "key") provider_unavailable)
                   (post_json (JObj [(py "query", JStr [])]))
                   example_world))) = 1
  /\ status_of
       (fst (web_search example_exn_str example_py_str
               (example_env (py "key") provider_unavailable)
               (post_json (JObj [(py "query", JStr [])]))
               example_world)) <> 400%Z.
Proof.
  destruct (empty_query_is_forwarded Z example_loads example_exn_str
              example_py_str (example_env (py "key") provider_unavailable)
              (post_json (JObj [(py "query", JStr [])]))
              example_world [(py "query", JStr [])])
    as ((Hcalls & Hstatus) & _).
  - reflexivity.
  - discriminate.
  - reflexivity.
  - right; reflexivity.
  - split; [rewrite Hcalls; reflexivity | exact Hstatus].
Defined.

(** C4, as stated, fails: with the number 5 as [imageData], which is not a
    decodable data URI, the request has a non-empty prompt and yet no
    payload is built: the provider is not called and the answer has
    status 500. *)
Lemma number_as_image_builds_no_payload :
  calls (snd (generate_image example_exn_str example_py_str
                (example_env (py "key") provider_unavailable)
                (post_json (JObj [(py "prompt", JStr (py "a red circle"));
                                  (py "imageData", JInt 5)]))
                example_world)) = []
  /\ status_of
       (fst (generate_image example_exn_str example_py_str
               (example_env (py "key") provider_unavailable)
               (post_json (JObj [(py "prompt", JStr (py "a red circle"));
                                 (py "imageData", JInt 5)]))
               example_world)) = 500%Z.
Proof. split; reflexivity. Qed.

(** An image request with a PNG data URI is an edit request. *)
Lemma image_request_edit_or_generate_witness :
  map call_payload
    (calls (snd (generate_image example_exn_str example_py_str
                   (example_env (py "key") provider_unavailable)
                   (post_json (JObj [(py "prompt", JStr (py "make it blue"));
                                     (py "imageData", JStr example_image)]))
                   example_world)))
  = [image_payload
       [inline_data (py "image/png") (py "iVBORw0KGgo=");
        text_part (JStr (py "Edit this image: make it blue"))]].
Proof.
  destruct (image_request_edit_or_generate Z example_exn_str example_py_str
              (example_env (py "key") provider_unavailable)
              (post_json (JObj [(py "prompt", JStr (py "make it blue"));
                                (py "imageData", JStr example_image)]))
              example_world
              [(py "prompt", JStr (py "make it blue"));
               (py "imageData", JStr example_image)]
              (py "make it blue") (JStr example_image))
    as (Hedit & _ & _).
  - reflexivity.
  - discriminate.
  - reflexivity.
  - reflexivity.
  - discriminate.
  - reflexivity.
  - rewrite (Hedit example_image (py "image/png") (py "iVBORw0KGgo=")
               eq_refl eq_refl).
    reflexivity.
Defined.

Lemma fenced_object_block :
  fenced fenced_object ([LF] ++ py_dq "{'message': 'Paris'}" ++ [LF]).
Proof.
  left.
  exists (py "Here it is: "),
    ([LF] ++ py_dq "{'message': 'Paris'}" ++ [LF] ++ py "``` Enjoy."),
    (py " Enjoy.").
  split; reflexivity.
Qed.

(** A fenced JSON object between two sentences becomes the map data. *)
Lemma fenced_map_data_witness :
  fst (map_search example_loads example_exn_str example_py_str
         (example_env (py "key") (provider_says fenced_object))
         (post_json (JObj [(py "query", JStr (py "Paris"))]))
         example_world)
  = Json (JObj [(py "mapData", JObj [(py "message", JStr (py "Paris"))]);
                (py "content", JStr (py "Paris"))]) 200.
Proof.
  destruct (fenced_map_data Z example_loads example_exn_str example_py_str
              (example_env (py "key") (provider_says fenced_object))
              (post_json (JObj [(py "query", JStr (py "Paris"))]))
              example_world
              [(py "query", JStr (py "Paris"))]
              {| ok := true;
                 response_json :=
                   Ok (JObj [(py "candidates",
                     JArr [JObj [(py "content",
                       JObj [(py "parts",
                         JArr [JObj [(py "text", JStr fenced_object)]])])]])]);
                 iter_lines := [];
                 iter_raises := None |}
              (JObj [(py "candidates",
                 JArr [JObj [(py "content",
                   JObj [(py "parts",
                     JArr [JObj [(py "text", JStr fenced_object)]])])]])])
              fenced_object
              ([LF] ++ py_dq "{'message': 'Paris'}" ++ [LF]))
    as (_ & Hobj & _).
  - reflexivity.
  - discriminate.
  - reflexivity.
  - reflexivity.
  - reflexivity.
  - reflexivity.
  - reflexivity.
  - reflexivity.
  - exact fenced_object_block.
  - apply (Hobj [(py "message", JStr (py "Paris"))]); reflexivity.
Defined.

(** * Further properties *)

(** ** The data-URI pattern, exactly *)

(** X1: the pattern of lines 109 and 196 matches a string, with the groups
    [mime] and [data], exactly when the string is [data:] followed by
    [mime], [;base64,] and [data], optionally followed by one line feed,
    where [mime] is not empty and holds no semicolon and [data] is not
    empty and holds no line feed. *)
Theorem data_uri_pattern_exact (s mime data : str) :
  match_data_uri s = Some (mime, data) <-> data_uri_form s mime data.
Proof.
  split; [apply match_data_uri_sound | apply match_data_uri_complete].
Qed.

(** ** The fenced block *)

Lemma up_to_clean (sep s : str) :
  sep <> [] -> break_on sep (up_to sep s) = None.
Proof.
  intros Hsep; unfold up_to.
  destruct (break_on sep s) as [[a b]|] eqn:Hb; [|exact Hb].
  eapply break_on_before; eauto.
Qed.

Lemma first_piece (sep s : str) :
  sep <> [] -> py_nth (split sep s) 0 = Ok (up_to sep s).
Proof.
  intros Hsep; rewrite (split_break _ _ Hsep); unfold up_to.
  destruct (break_on sep s) as [[a b]|]; reflexivity.
Qed.

(** X2: whatever the candidate text is, the text that map search goes on
    with holds no fence marker, and extracting from it again changes
    nothing. *)
Theorem fence_extract_clean (content inner : str) :
  fence_extract content = Ok inner ->
  contains fence inner = false /\ fence_extract inner = Ok inner.
Proof.
  intros H.
  assert (Hclean : contains fence inner = false).
  { unfold fence_extract in H.
    destruct (contains fence_json content).
    - destruct (py_nth (split fence_json content) 1) as [a|]; [|discriminate].
      cbn [rbind] in H; rewrite (first_piece _ a fence_not_empty) in H.
      injection H as <-; unfold contains.
      rewrite (up_to_clean _ a fence_not_empty); reflexivity.
    - destruct (contains fence content) eqn:Hf.
      + destruct (py_nth (split fence content) 1) as [a|]; [|discriminate].
        cbn [rbind] in H; rewrite (first_piece _ a fence_not_empty) in H.
        injection H as <-; unfold contains.
        rewrite (up_to_clean _ a fence_not_empty); reflexivity.
      + injection H as <-; exact Hf. }
  split; [exact Hclean | apply fence_extract_plain; exact Hclean].
Qed.

(** ** Relaying the provider's chunks *)

Ltac probe_step :=
  match goal with
  | |- context [match ?x with _ => _ end] =>
      is_var x; destruct x; cbn [lookup]; try (intros; discriminate)
  | |- context [match lookup ?k ?l with _ => _ end] =>
      is_var l; destruct (lookup k l); cbn [lookup];
      try (intros; discriminate)
  end.

Lemma probe_then_chunk (data text : json) :
  probe_text data = Ok text -> truthy text = true ->
  first_text data = Ok text.
Proof.
  unfold probe_text, first_text, py_get, getitem, getitem0, rbind.
  repeat probe_step;
    intros H1 H2; try discriminate;
    injection H1 as <-; try discriminate; reflexivity.
Qed.

Lemma chunk_then_probe (data text : json) :
  first_text data = Ok text -> probe_text data = Ok text.
Proof.
  unfold probe_text, first_text, py_get, getitem, getitem0, rbind.
  repeat probe_step; intros H1; try discriminate; exact H1.
Qed.

Section RelayChunks.

Variable time : Type.
Variable json_loads : str -> result json.
Variable decode_utf8 : bytes -> result str.
Variable exn_str : exn -> str.
Variable E : env time.

Ltac probe_bind :=
  match goal with
  | |- context [if truthy ?a then _ else _] =>
      destruct (truthy a); unfold first_text
  | |- context [rbind (py_get ?a ?b ?c) _] =>
      destruct (py_get a b c); cbn [rbind]
  | |- context [rbind (getitem0 ?a) _] =>
      destruct (getitem0 a); cbn [rbind]
  | |- context [rbind (getitem ?a ?b) _] =>
      destruct (getitem a b); cbn [rbind]
  end.

Lemma relay_chunk_probe (chunk : str) :
  relay_chunk json_loads chunk
  = match
      (data <- json_loads chunk ;;
       text <- probe_text data ;;
       if truthy text then
         content <- first_text data ;; Ok [delta_event content]
       else Ok [])
    with
    | Ok events => events
    | Raise _ => []
    end.
Proof.
  unfold relay_chunk, probe_text.
  destruct (json_loads chunk) as [data|]; cbn [rbind]; [|reflexivity].
  repeat probe_bind; reflexivity.
Qed.

(** X3: a chunk of the provider yields one delta event, carrying
    [candidates[0].content.parts[0].text], exactly when the chunk is valid
    JSON in which that text exists and is truthy; any other chunk yields
    nothing.  The lenient probe with defaults and the strict lookup that
    follows it amount to one strict lookup. *)
Theorem relay_chunk_exact (chunk : str) :
  relay_chunk json_loads chunk
  = match json_loads chunk with
    | Ok data =>
        match first_text data with
        | Ok text => if truthy text then [delta_event text] else []
        | Raise _ => []
        end
    | Raise _ => []
    end.
Proof.
  rewrite relay_chunk_probe.
  destruct (json_loads chunk) as [data|]; cbn [rbind]; [|reflexivity].
  destruct (probe_text data) as [text|] eqn:Hp; cbn [rbind].
  - destruct (truthy text) eqn:Ht.
    + rewrite (probe_then_chunk _ _ Hp Ht); cbn [rbind]; rewrite Ht.
      reflexivity.
    + destruct (first_text data) as [t|] eqn:Hf; [|reflexivity].
      apply chunk_then_probe in Hf; rewrite Hp in Hf.
      injection Hf as <-; rewrite Ht; reflexivity.
  - destruct (first_text data) as [t|] eqn:Hf; [|reflexivity].
    apply chunk_then_probe in Hf; rewrite Hp in Hf; discriminate.
Qed.

Lemma relay_chunk_spoken (chunk : str) :
  Forall is_spoken (relay_chunk json_loads chunk)
  /\ length (relay_chunk json_loads chunk) <= 1.
Proof.
  rewrite relay_chunk_exact.
  destruct (json_loads chunk) as [data|]; [|split; [constructor | simpl; lia]].
  destruct (first_text data) as [text|]; [|split; [constructor | simpl; lia]].
  destruct (truthy text) eqn:Ht; split; simpl; try lia; repeat constructor.
  exists text; auto.
Qed.

Lemma relay_line_spoken (line : bytes) (events : list sse) :
  relay_line json_loads decode_utf8 line = Ok events ->
  Forall is_spoken events /\ length events <= 1.
Proof.
  unfold relay_line.
  destruct line as [|b line]; [intros [= <-]; split; [constructor|simpl; lia]|].
  destruct (decode_utf8 (b :: line)) as [line_str|]; [|discriminate].
  cbn [rbind].
  destruct (startswith line_str (py "data: ")); intros [= <-];
    [apply relay_chunk_spoken | split; [constructor | simpl; lia]].
Qed.

(** X4: the relay yields at most one event for each line of the provider,
    and every event it yields while iterating is a delta event with a
    truthy content: an empty text is never forwarded. *)
Theorem relay_lines_spoken (lines : list bytes) :
  Forall is_spoken (fst (relay_lines json_loads decode_utf8 lines))
  /\ length (fst (relay_lines json_loads decode_utf8 lines)) <= length lines.
Proof.
  induction lines as [|line rest [IH1 IH2]]; simpl;
    [split; [constructor | lia]|].
  destruct (relay_line json_loads decode_utf8 line) as [events|] eqn:Hl;
    [|split; [constructor | simpl; lia]].
  destruct (relay_line_spoken _ _ Hl) as [H1 H2].
  destruct (relay_lines json_loads decode_utf8 rest) as [more raised].
  cbn [fst] in *; split.
  - apply Forall_app; auto.
  - rewrite length_app; lia.
Qed.

(** X5: relaying is incremental.  The events for the lines [a ++ b] are
    the events for [a] followed by the events for [b]; when a line of [a]
    cannot be decoded, the lines of [b] are not looked at. *)
Theorem relay_lines_app (a b : list bytes) :
  relay_lines json_loads decode_utf8 (a ++ b)
  = match relay_lines json_loads decode_utf8 a with
    | (events, Some e) => (events, Some e)
    | (events, None) =>
        (events ++ fst (relay_lines json_loads decode_utf8 b),
         snd (relay_lines json_loads decode_utf8 b))
    end.
Proof.
  induction a as [|line a IH]; simpl.
  - destruct (relay_lines json_loads decode_utf8 b); reflexivity.
  - destruct (relay_line json_loads decode_utf8 line) as [events|];
      [|reflexivity].
    rewrite IH.
    destruct (relay_lines json_loads decode_utf8 a) as [ea [x|]];
      [reflexivity|].
    rewrite app_assoc; reflexivity.
Qed.

(** X6: every delta event of a chat stream has a truthy content, whatever
    the provider does. *)
Theorem chat_stream_deltas_spoken
    (contents : list json) (system_prompt : str) (w : world time)
    (content : json) :
  In (delta_event content)
     (fst (generate json_loads decode_utf8 exn_str E contents
             system_prompt w)) ->
  truthy content = true.
Proof.
  assert (Hspoken : forall events,
            Forall is_spoken events -> In (delta_event content) events ->
            truthy content = true).
  { intros events Hall Hin; rewrite Forall_forall in Hall.
    destruct (Hall _ Hin) as (c & Hc & Ht).
    injection Hc as <-; exact Ht. }
  assert (Hlast : forall events last,
            Forall is_spoken events ->
            (last = SseDone \/ exists msg, last = error_event msg) ->
            In (delta_event content) (events ++ [last]) ->
            truthy content = true).
  { intros events last Hall Hl Hin; apply in_app_or in Hin.
    destruct Hin as [Hin | [Hin | []]]; [eapply Hspoken; eauto|].
    destruct Hl as [-> | (msg & ->)]; discriminate Hin. }
  unfold generate, requests_post.
  destruct (upstream E _) as [e|resp]; cbn [fst].
  - apply (Hlast []); [constructor | eauto].
  - destruct (ok resp); cbn [negb fst].
    + pose proof (relay_lines_spoken (iter_lines resp)) as [Hd _].
      destruct (relay_lines json_loads decode_utf8 (iter_lines resp))
        as [events [e|]]; cbn [fst] in *.
      * apply Hlast; eauto.
      * destruct (iter_raises resp) as [e|]; cbn [fst];
          apply Hlast; eauto.
    + apply (Hlast []); [constructor | eauto].
Qed.

End RelayChunks.

(** ** The handlers, for every request *)

Section EveryRequest.

Variable time : Type.
Variable json_loads : str -> result json.
Variable decode_utf8 : bytes -> result str.
Variable exn_str : exn -> str.
Variable py_str : json -> str.
Variable E : env time.

Ltac open_handlers :=
  unfold handle, chat, generate_image, web_search, map_search, try_except,
    generate_image_body, web_search_body, map_search_body, bind, lift, ret,
    requests_post;
  cbn beta iota.

(** [scrutinee] holds no case analysis of its own. *)
Ltac innermost scrutinee :=
  lazymatch scrutinee with
  | context [match _ with _ => _ end] => fail
  | _ => idtac
  end.

(** One case analysis on an innermost scrutinee of the goal. *)
Ltac case_step :=
  match goal with
  | |- context [match ?scrutinee with _ => _ end] =>
      innermost scrutinee; destruct scrutinee eqn:?
  end;
  cbn beta iota.

Ltac world_fields :=
  cbn [fst snd last_request_time ticks calls warm_up time_time].

(** X7: every POST request to an endpoint of the provider, whatever its
    outcome, sets the liveness timestamp to the clock reading made on
    entry and reads the clock once; an OPTIONS request is answered with an
    empty body and status 204 and leaves the process state as it was. *)
Theorem post_touches_liveness
    (ep : endpoint) (req : request) (w : world time) :
  (method req = POST ->
   last_request_time (snd (handle json_loads exn_str py_str E ep req w))
     = clock E (ticks w)
   /\ ticks (snd (handle json_loads exn_str py_str E ep req w))
      = S (ticks w))
  /\ (method req = OPTIONS ->
      handle json_loads exn_str py_str E ep req w = (Plain [] 204, w)).
Proof.
  destruct ep; open_handlers; destruct (method req);
    (split; intros Hm; try discriminate Hm; try reflexivity);
    repeat case_step; world_fields; split; reflexivity.
Qed.

(** X8: no request makes an endpoint call the provider more than once.
    The chat handler makes no call itself; a buffered endpoint makes at
    most one, not streamed, to a URL under the provider's base URL that
    ends with the credential.  Earlier entries of the call log are kept. *)
Theorem one_call_at_most
    (ep : endpoint) (req : request) (w : world time) :
  calls (snd (handle json_loads exn_str py_str E ep req w)) = calls w
  \/ (ep <> ApiChat
      /\ exists c,
           calls (snd (handle json_loads exn_str py_str E ep req w))
             = calls w ++ [c]
           /\ call_stream c = false
           /\ exists path,
                call_url c = GEMINI_API_URL ++ path ++ GOOGLE_API_KEY E).
Proof.
  destruct ep; open_handlers; repeat case_step; world_fields;
    try (left; reflexivity);
    right; (split; [discriminate|]);
    eexists; (split; [reflexivity|]); (split; [reflexivity|]);
    unfold image_url, search_url; cbn [call_url]; eexists; reflexivity.
Qed.

(** X9: with a credential, a POST request whose body cannot be read as
    JSON, or is JSON but not an object, is answered by every endpoint with
    status 500 and the text of the exception, and the provider is not
    called. *)
Theorem malformed_body_is_server_error
    (ep : endpoint) (req : request) (w : world time) :
  method req = POST ->
  GOOGLE_API_KEY E <> [] ->
  (forall e,
     request_json req = Raise e ->
     handle json_loads exn_str py_str E ep req w
     = (Json (JObj [(py "error", JStr (exn_str e))]) 500, warm_up E w))
  /\ (forall v,
        request_json req = Ok v -> (forall kvs, v <> JObj kvs) ->
        handle json_loads exn_str py_str E ep req w
        = (Json (JObj [(py "error", JStr (exn_str AttributeError))]) 500,
           warm_up E w)).
Proof.
  intros Hm Hkey; split.
  - intros e He; destruct ep; open_handlers;
      rewrite Hm, (no_key_false _ _ Hkey); unfold chat_body;
      rewrite He; reflexivity.
  - intros v Hv Hobj; destruct ep; open_handlers;
      rewrite Hm, (no_key_false _ _ Hkey); unfold chat_body;
      rewrite Hv; destruct v; try reflexivity;
      exfalso; eapply Hobj; reflexivity.
Qed.

Lemma no_call_absurd (A : Type) (l : list A) (c : A) : l <> l ++ [c].
Proof.
  intros H; apply (f_equal (@length A)) in H.
  rewrite length_app in H; simpl in H; lia.
Qed.

Lemma one_call_inv (A : Type) (l : list A) (c c' : A) :
  l ++ [c] = l ++ [c'] -> c = c'.
Proof. intros H; apply app_inv_head in H; congruence. Qed.

(** After [calls] gained the call [c]: *)
Ltac the_call Hc :=
  cbn [fst snd last_request_time ticks calls warm_up time_time] in Hc;
  first [ exfalso; exact (no_call_absurd _ _ _ Hc)
        | apply one_call_inv in Hc; subst ].

Ltac use_outcome :=
  repeat match goal with
         | H : negb _ = true |- _ => apply negb_true_iff in H
         | H : negb _ = false |- _ => apply negb_false_iff in H
         end;
  repeat match goal with
         | H : upstream E _ = _ |- _ => rewrite H; clear H
         | H : ok _ = _ |- _ => rewrite H; clear H
         | H : image_result _ _ _ = _ |- _ => rewrite H; clear H
         | H : web_search_result _ = _ |- _ => rewrite H; clear H
         | H : map_search_result _ _ = _ |- _ => rewrite H; clear H
         end.

Lemma answer_after_call
    (ep : endpoint) (req : request) (w : world time) (c : upstream_call) :
  calls (snd (handle json_loads exn_str py_str E ep req w)) = calls w ++ [c] ->
  exists is_edit,
    fst (handle json_loads exn_str py_str E ep req w)
    = after_call json_loads exn_str py_str ep is_edit (upstream E c).
Proof.
  remember (upstream E c) as o eqn:Ho.
  destruct (handle json_loads exn_str py_str E ep req w) as [resp w'] eqn:Hh.
  cbn [fst snd]; revert Hh.
  destruct ep; open_handlers; repeat case_step;
    intros [= <- <-] Hc; the_call Hc;
    unfold after_call; cbn [negb] in *;
    try (exists true; use_outcome; reflexivity);
    try (match goal with b : bool |- _ => exists b end;
         use_outcome; reflexivity).
Qed.

(** X10: when a buffered endpoint has called the provider and the call
    raises, the answer is status 500 with the text of the exception; when
    the provider answers with a non-success status, the answer is status
    500 with the endpoint's fixed message, whatever the provider's body
    says. *)
Theorem buffered_upstream_failure
    (ep : endpoint) (req : request) (w : world time) (c : upstream_call) :
  calls (snd (handle json_loads exn_str py_str E ep req w)) = calls w ++ [c] ->
  (forall e,
     upstream E c = PostRaises e ->
     fst (handle json_loads exn_str py_str E ep req w)
     = Json (JObj [(py "error", JStr (exn_str e))]) 500)
  /\ (forall r,
        upstream E c = PostReturns r -> ok r = false ->
        fst (handle json_loads exn_str py_str E ep req w)
        = Json (JObj [(py "error", JStr (upstream_failed_message ep))]) 500).
Proof.
  intros Hc; destruct (answer_after_call _ _ _ _ Hc) as (is_edit & ->).
  split.
  - intros e ->; reflexivity.
  - intros r -> Hok; unfold after_call; rewrite Hok; reflexivity.
Qed.

Lemma has_candidates_none (rk : list (str * json)) :
  lookup (py "candidates") rk = None
    \/ lookup (py "candidates") rk = Some (JArr []) ->
  has_candidates (JObj rk) = Ok false.
Proof.
  unfold has_candidates, py_in, getitem.
  intros [-> | ->]; reflexivity.
Qed.

(** X11: when the provider answers a buffered endpoint with a success
    status and a JSON object without candidates (no [candidates] key, or an
    empty list), the answer is status 500 with the endpoint's fixed
    message. *)
Theorem no_candidates_is_failure
    (ep : endpoint) (req : request) (w : world time) (c : upstream_call)
    (r : http_response) (rk : list (str * json)) :
  calls (snd (handle json_loads exn_str py_str E ep req w)) = calls w ++ [c] ->
  upstream E c = PostReturns r ->
  ok r = true ->
  response_json r = Ok (JObj rk) ->
  lookup (py "candidates") rk = None
    \/ lookup (py "candidates") rk = Some (JArr []) ->
  fst (handle json_loads exn_str py_str E ep req w)
  = Json (JObj [(py "error", JStr (no_candidates_message ep))]) 500.
Proof.
  intros Hc Hup Hok Hjson Hnone.
  destruct (answer_after_call _ _ _ _ Hc) as (is_edit & ->).
  rewrite Hup; unfold after_call; rewrite Hok.
  pose proof (has_candidates_none _ Hnone) as Hh.
  destruct ep.
  - exfalso; revert Hc; open_handlers; repeat case_step; world_fields;
      apply no_call_absurd.
  - unfold image_result; rewrite Hjson; cbn [rbind]; rewrite Hh; reflexivity.
  - unfold web_search_result; rewrite Hjson; cbn [rbind]; rewrite Hh;
      reflexivity.
  - unfold map_search_result; rewrite Hjson; cbn [rbind]; rewrite Hh;
      reflexivity.
Qed.

Ltac bind_step :=
  match goal with
  | |- context [rbind ?c _] => destruct c; cbn [rbind]; try discriminate
  | |- context [if ?b then _ else _] => destruct b; try discriminate
  end.

Lemma image_result_not_400
    (is_edit : bool) (r : http_response) (x : response) :
  image_result py_str is_edit r = Ok x -> status_of x <> 400%Z.
Proof.
  unfold image_result; repeat bind_step; intros [= <-]; discriminate.
Qed.

Lemma web_search_result_not_400 (r : http_response) (x : response) :
  web_search_result r = Ok x -> status_of x <> 400%Z.
Proof.
  intros H; destruct (web_search_result_status _ _ H) as [-> | ->];
    discriminate.
Qed.

Lemma map_search_result_not_400 (r : http_response) (x : response) :
  map_search_result json_loads r = Ok x -> status_of x <> 400%Z.
Proof.
  intros H; destruct (map_search_result_status json_loads _ _ H) as [-> | ->];
    discriminate.
Qed.

Lemma chat_body_not_400 (req : request) (x : response) :
  chat_body req = Ok x -> status_of x <> 400%Z.
Proof.
  unfold chat_body; repeat bind_step; intros [= <-]; discriminate.
Qed.

Lemma no_key_false_inv : no_key E = false -> GOOGLE_API_KEY E <> [].
Proof.
  unfold no_key; destruct (GOOGLE_API_KEY E); [discriminate|].
  intros _; discriminate.
Qed.

(** X12: status 400 has one cause.  An endpoint answers 400 exactly when
    it is generate-image, the request is a POST, a credential is
    configured, the body is a JSON object and its prompt is falsy: absent,
    empty, null, false, zero, or an empty list or object. *)
Theorem client_error_only_for_prompt
    (ep : endpoint) (req : request) (w : world time) :
  status_of (fst (handle json_loads exn_str py_str E ep req w)) = 400%Z
  <-> ep = ApiGenerateImage
      /\ method req = POST
      /\ GOOGLE_API_KEY E <> []
      /\ exists kvs,
           request_json req = Ok (JObj kvs)
           /\ truthy (prompt_of kvs) = false.
Proof.
  split.
  - destruct ep; open_handlers; repeat case_step; cbn [fst status_of];
      intros H400; try discriminate H400;
      try (exfalso;
           match goal with
           | Hr : chat_body _ = Ok _ |- _ =>
               exact (chat_body_not_400 _ _ Hr H400)
           | Hr : image_result _ _ _ = Ok _ |- _ =>
               exact (image_result_not_400 _ _ _ Hr H400)
           | Hr : web_search_result _ = Ok _ |- _ =>
               exact (web_search_result_not_400 _ _ Hr H400)
           | Hr : map_search_result _ _ = Ok _ |- _ =>
               exact (map_search_result_not_400 _ _ Hr H400)
           end).
    match goal with
    | Hj : request_json req = Ok ?a,
      Hp : py_get ?a (py "prompt") _ = Ok ?p,
      Ht : negb (truthy ?p) = true,
      Hk : no_key E = false |- _ =>
        destruct a; cbn [py_get] in Hp; try discriminate Hp;
        injection Hp as <-;
        apply negb_true_iff in Ht;
        repeat split; auto using no_key_false_inv;
        eexists; split; [reflexivity | exact Ht]
    end.
  - intros (-> & Hm & Hkey & kvs & Hj & Ht).
    open_handlers; rewrite Hm, (no_key_false _ _ Hkey), Hj.
    unfold py_get; fold (prompt_of kvs); rewrite Ht; reflexivity.
Qed.

(** X13: an image that generate-image returns can be sent back for
    editing.  For an inline part with a string type and payload that the
    pattern accepts, the [imageUrl] built from the part is decoded by the
    image extraction to the same type and payload. *)
Theorem generated_image_round_trip
    (acc : json * json) (pk ik : list (str * json)) (mime data : str) :
  lookup (py "inlineData") pk = Some (JObj ik) ->
  lookup (py "mimeType") ik = Some (JStr mime) ->
  lookup (py "data") ik = Some (JStr data) ->
  mime <> [] -> ~ In semicolon mime -> data <> [] -> ~ In LF data ->
  exists url,
    scan_part py_str acc (JObj pk) = Ok (JStr url, snd acc)
    /\ extract_image (JStr url) = Ok (Some (inline_data mime data)).
Proof.
  intros Hi Hm Hd Hm1 Hm2 Hd1 Hd2.
  exists (py "data:" ++ mime ++ py ";base64," ++ data); split.
  - unfold scan_part, py_in, getitem; rewrite Hi; cbn [rbind].
    rewrite Hm, Hd; reflexivity.
  - apply extract_image_data_uri, match_data_uri_complete.
    repeat split; auto.
Qed.

Lemma scan_parts_without_image (ps : list json) :
  Forall (fun p => exists pk, p = JObj pk
                              /\ lookup (py "inlineData") pk = None) ps ->
  forall img txt,
  exists t,
    scan_parts py_str (img, txt) ps = Ok (img, t)
    /\ (Forall (fun p => exists pk, p = JObj pk
                                    /\ lookup (py "text") pk = None) ps ->
        t = txt).
Proof.
  induction 1 as [|p ps (pk & -> & Hi) _ IH]; intros img txt.
  - exists txt; split; [reflexivity | auto].
  - simpl; unfold scan_part, py_in, getitem; rewrite Hi; cbn [rbind].
    destruct (lookup (py "text") pk) as [t0|] eqn:Ht; cbn [rbind fst snd].
    + destruct (IH img t0) as (t & -> & _).
      exists t; split; [reflexivity|].
      intros Hall; inversion Hall as [|? ? (pk' & Hpk & Hno) _]; subst.
      injection Hpk as <-; congruence.
    + destruct (IH img txt) as (t & -> & Ht').
      exists t; split; [reflexivity|].
      intros Hall; inversion Hall; subst; auto.
Qed.

(** X14: when the first candidate of the provider's answer holds only
    parts without [inlineData], generate-image's translation still
    succeeds with status 200 and a null [imageUrl]; when the parts hold no
    text either, the caption is the fixed one for an edit or for a
    generation. *)
Theorem image_answer_without_image
    (is_edit : bool) (r : http_response)
    (rk ck ok' : list (str * json)) (more ps : list json) :
  response_json r = Ok (JObj rk) ->
  lookup (py "candidates") rk = Some (JArr (JObj ck :: more)) ->
  lookup (py "content") ck = Some (JObj ok') ->
  lookup (py "parts") ok' = Some (JArr ps) ->
  Forall (fun p => exists pk, p = JObj pk
                              /\ lookup (py "inlineData") pk = None) ps ->
  exists t,
    image_result py_str is_edit r
    = Ok (Json (JObj [(py "imageUrl", JNull); (py "text", t)]) 200)
    /\ (Forall (fun p => exists pk, p = JObj pk
                                    /\ lookup (py "text") pk = None) ps ->
        t = JStr (if is_edit then py "Here's your edited image!"
                  else py "Here's your generated image!")).
Proof.
  intros Hj Hc Hcont Hparts Hall.
  destruct (scan_parts_without_image ps Hall JNull
              (if is_edit then JStr (py "Here's your edited image!")
               else JStr (py "Here's your generated image!")))
    as (t & Hscan & Ht).
  exists t; split.
  - unfold image_result, has_candidates, py_in, getitem, py_len, getitem0.
    rewrite Hj; cbn [rbind]; rewrite Hc; cbn [rbind length Nat.ltb Nat.leb].
    rewrite Hcont; cbn [rbind]; rewrite Hparts; cbn [rbind py_iter].
    rewrite Hscan; reflexivity.
  - intros Hno; rewrite (Ht Hno); destruct is_edit; reflexivity.
Qed.

Lemma map_data_of_has_content (content : json) :
  exists body,
    map_data_of json_loads content = Json (JObj body) 200
    /\ lookup (py "content") body <> None.
Proof.
  assert (Honly : forall v, exists body,
            content_only v = Json (JObj body) 200
            /\ lookup (py "content") body <> None).
  { intros v; eexists; split; [reflexivity | discriminate]. }
  destruct content; try apply Honly.
  unfold map_data_of, map_data_of_text.
  destruct (fence_extract s) as [inner|]; [|apply Honly].
  destruct (json_loads (strip inner)) as [v|]; cbn [rbind]; [|apply Honly].
  destruct (py_get v (py "message") (JStr [])) as [m|]; cbn [rbind];
    [|apply Honly].
  eexists; split; [reflexivity | discriminate].
Qed.

(** X15: once the provider has answered map-search with a first candidate
    that has a text, the endpoint answers with status 200 and a JSON
    object that has a [content] field, whatever the text is: a parse
    failure never fails the request. *)
Theorem map_search_answers_any_text
    (req : request) (w : world time) (c : upstream_call)
    (r : http_response) (res content : json) :
  calls (snd (map_search json_loads exn_str py_str E req w))
    = calls w ++ [c] ->
  upstream E c = PostReturns r ->
  ok r = true ->
  response_json r = Ok res ->
  has_candidates res = Ok true ->
  first_text res = Ok content ->
  exists body,
    fst (map_search json_loads exn_str py_str E req w) = Json (JObj body) 200
    /\ lookup (py "content") body <> None.
Proof.
  intros Hc Hup Hok Hj Hcands Htext.
  destruct (answer_after_call ApiMapSearch _ _ _ Hc) as (is_edit & H).
  cbn [handle] in H; rewrite H, Hup; unfold after_call; rewrite Hok.
  unfold map_search_result; rewrite Hj; cbn [rbind].
  rewrite Hcands; cbn [rbind]; rewrite Htext; cbn [rbind].
  apply map_data_of_has_content.
Qed.

(** X16: with a credential and a truthy prompt, a generate-image request
    whose [imageData] is truthy and not a string (a number, [true], a
    non-empty list or object) is answered with status 500 and the provider
    is not called. *)
Theorem image_data_must_be_a_string
    (req : request) (w : world time) (kvs : list (str * json))
    (image : json) :
  method req = POST ->
  GOOGLE_API_KEY E <> [] ->
  request_json req = Ok (JObj kvs) ->
  truthy (prompt_of kvs) = true ->
  lookup (py "imageData") kvs = Some image ->
  truthy image = true ->
  (forall s, image <> JStr s) ->
  generate_image exn_str py_str E req w
  = (Json (JObj [(py "error", JStr (exn_str AttributeError))]) 500,
     warm_up E w).
Proof.
  intros Hm Hkey Hj Hp Hi Ht Hs.
  open_handlers; rewrite Hm, (no_key_false _ _ Hkey), Hj.
  unfold py_get; fold (prompt_of kvs); rewrite Hp, Hi; cbn [negb].
  unfold image_parts, extract_image; rewrite Ht.
  destruct image; try reflexivity.
  exfalso; eapply Hs; reflexivity.
Qed.

Lemma chat_turn_bad (msg : json) :
  (forall mk, msg <> JObj mk)
  \/ (exists mk, msg = JObj mk
                 /\ (lookup (py "role") mk = None
                     \/ lookup (py "content") mk = None)) ->
  forall n top i, exists e, chat_turn n top i msg = Raise e.
Proof.
  intros Hbad n top i; unfold chat_turn.
  destruct Hbad as [Hno | (mk & -> & [Hr | Hc])].
  - destruct msg; try (eexists; reflexivity).
    exfalso; eapply Hno; reflexivity.
  - unfold getitem; rewrite Hr; eexists; reflexivity.
  - unfold getitem, py_get; rewrite Hc.
    destruct (lookup (py "role") mk); cbn [rbind]; [|eexists; reflexivity].
    destruct (extract_image _); cbn [rbind]; eexists; reflexivity.
Qed.

Lemma chat_turns_raise (n : nat) (top msg : json) (msgs : list json) :
  In msg msgs ->
  (forall i, exists e, chat_turn n top i msg = Raise e) ->
  forall i, exists e, chat_turns n top i msgs = Raise e.
Proof.
  intros Hin Hbad; induction msgs as [|m rest IH]; intros i; [destruct Hin|].
  simpl; destruct Hin as [-> | Hin].
  - destruct (Hbad i) as (e & ->); eexists; reflexivity.
  - destruct (chat_turn n top i m); [|eexists; reflexivity].
    cbn [rbind]; destruct (IH Hin (S i)) as (e & ->).
    eexists; reflexivity.
Qed.

(** X17: with a credential, a chat request in which any message is not an
    object, or has no [role], or has no [content], is answered with status
    500 and a JSON error: no event stream is opened, so no turn reaches
    the provider. *)
Theorem chat_rejects_malformed_message
    (req : request) (w : world time) (kvs : list (str * json))
    (msgs : list json) (msg : json) :
  method req = POST ->
  GOOGLE_API_KEY E <> [] ->
  request_json req = Ok (JObj kvs) ->
  lookup (py "messages") kvs = Some (JArr msgs) ->
  In msg msgs ->
  (forall mk, msg <> JObj mk)
  \/ (exists mk, msg = JObj mk
                 /\ (lookup (py "role") mk = None
                     \/ lookup (py "content") mk = None)) ->
  exists e,
    chat exn_str E req w
    = (Json (JObj [(py "error", JStr (exn_str e))]) 500, warm_up E w).
Proof.
  intros Hm Hkey Hj Hmsgs Hin Hbad.
  open_handlers; rewrite Hm, (no_key_false _ _ Hkey).
  unfold chat_body; rewrite Hj; unfold py_get; cbn [rbind]; rewrite Hmsgs.
  unfold gemini_contents; cbn [py_iter rbind].
  destruct (chat_turns_raise (length msgs)
              (match lookup (py "imageData") kvs with
               | Some x => x
               | None => JNull
               end) msg msgs Hin
              (fun i => chat_turn_bad msg Hbad _ _ i) 0) as (e & ->).
  exists e; reflexivity.
Qed.

(** X18: the chat payload is only ever built from a list of messages.  For
    a [messages] value that is not a list, the translation succeeds only
    on the empty string and the empty object, with no turn at all; every
    other value raises. *)
Theorem contents_need_a_list (messages top : json) (contents : list json) :
  gemini_contents messages top = Ok contents ->
  (exists msgs, messages = JArr msgs)
  \/ (contents = []
      /\ (messages = JStr [] \/ messages = JObj [])).
Proof.
  unfold gemini_contents.
  destruct messages as [| | | |s|l|kvs]; try discriminate.
  - destruct s as [|c s]; [intros [= <-]; right; auto|].
    cbn; discriminate.
  - intros _; left; eauto.
  - destruct kvs as [|[k v] kvs]; [intros [= <-]; right; auto|].
    cbn; discriminate.
Qed.

(** X19: chat and its stream compose.  With a credential, for a JSON
    object whose messages translate to [contents], the handler returns
    the event stream without calling the provider, and consuming the
    stream makes the single call: a streamed call whose payload holds
    [contents] and the system prompt, which is the base prompt extended
    with the build-mode paragraph exactly when [mode] is the string
    [code]. *)
Theorem chat_then_stream
    (req : request) (w : world time) (kvs : list (str * json))
    (contents : list json) :
  method req = POST ->
  GOOGLE_API_KEY E <> [] ->
  request_json req = Ok (JObj kvs) ->
  gemini_contents
    (match lookup (py "messages") kvs with Some v => v | None => JArr [] end)
    (match lookup (py "imageData") kvs with Some v => v | None => JNull end)
  = Ok contents ->
  exists system_prompt,
    chat exn_str E req w = (EventStream contents system_prompt, warm_up E w)
    /\ (lookup (py "mode") kvs = Some (JStr (py "code")) ->
        system_prompt = chat_system_prompt ++ build_mode_prompt)
    /\ (lookup (py "mode") kvs <> Some (JStr (py "code")) ->
        system_prompt = chat_system_prompt)
    /\ calls (snd (generate json_loads decode_utf8 exn_str E contents
                     system_prompt (warm_up E w)))
       = calls w ++ [{| call_url := chat_url E;
                        call_payload := chat_payload contents system_prompt;
                        call_stream := true |}].
Proof.
  intros Hm Hkey Hj Hc.
  exists (if eq_str (match lookup (py "mode") kvs with
                     | Some v => v
                     | None => JStr (py "chat")
                     end) (py "code")
          then chat_system_prompt ++ build_mode_prompt
          else chat_system_prompt).
  split; [|split; [|split]].
  - open_handlers; rewrite Hm, (no_key_false _ _ Hkey).
    unfold chat_body; rewrite Hj; unfold py_get; cbn [rbind].
    rewrite Hc; reflexivity.
  - intros ->; reflexivity.
  - intros Hmode.
    destruct (eq_str _ (py "code")) eqn:He; [|reflexivity].
    apply eq_str_true in He.
    destruct (lookup (py "mode") kvs) as [v|]; [|discriminate He].
    subst v; contradiction.
  - unfold generate, requests_post.
    destruct (upstream E _) as [e|resp]; [reflexivity|].
    destruct (ok resp); cbn [negb]; [|reflexivity].
    destruct (relay_lines json_loads decode_utf8 (iter_lines resp))
      as [events [e|]]; [reflexivity|].
    destruct (iter_raises resp); reflexivity.
Qed.

End EveryRequest.

Section LastWins.

Variable time : Type.
Variable json_loads : str -> result json.
Variable decode_utf8 : bytes -> result str.
Variable exn_str : exn -> str.
Variable py_str : json -> str.
Variable E : env time.

Lemma scan_parts_app (acc : json * json) (a b : list json) :
  scan_parts py_str acc (a ++ b)
  = (acc' <- scan_parts py_str acc a ;; scan_parts py_str acc' b).
Proof.
  revert acc; induction a as [|p a IH]; intros acc; simpl; [reflexivity|].
  destruct (scan_part py_str acc p) as [acc'|]; cbn [rbind]; [apply IH|].
  reflexivity.
Qed.

(** X20: when the provider returns several parts, the last image wins.
    If the parts before the last are scanned without an exception and the
    last part is an inline image with a string type and payload, the
    [imageUrl] is the data URI of that last part, and the caption is the
    one the earlier parts left. *)
Theorem last_image_wins
    (acc acc' : json * json) (ps : list json)
    (pk ik : list (str * json)) (mime data : str) :
  scan_parts py_str acc ps = Ok acc' ->
  lookup (py "inlineData") pk = Some (JObj ik) ->
  lookup (py "mimeType") ik = Some (JStr mime) ->
  lookup (py "data") ik = Some (JStr data) ->
  scan_parts py_str acc (ps ++ [JObj pk])
  = Ok (JStr (py "data:" ++ mime ++ py ";base64," ++ data), snd acc').
Proof.
  intros Hps Hi Hm Hd.
  rewrite scan_parts_app, Hps; cbn [rbind scan_parts].
  unfold scan_part, py_in, getitem; rewrite Hi; cbn [rbind].
  rewrite Hm, Hd; reflexivity.
Qed.

(** X21: a line of the provider that yields no event, such as a blank
    line between two events or a line without the [data: ] prefix, can be
    dropped from the stream without changing what is relayed. *)
Theorem silent_lines_are_harmless (a b : list bytes) (line : bytes) :
  relay_line json_loads decode_utf8 line = Ok [] ->
  relay_lines json_loads decode_utf8 (a ++ line :: b)
  = relay_lines json_loads decode_utf8 (a ++ b).
Proof.
  intros Hline.
  rewrite !(relay_lines_app json_loads decode_utf8 a).
  destruct (relay_lines json_loads decode_utf8 a) as [events [e|]];
    [reflexivity|].
  simpl; rewrite Hline.
  destruct (relay_lines json_loads decode_utf8 b); reflexivity.
Qed.

(** X22: once web search has called the provider and got a success status
    and a JSON answer with a candidate, the endpoint returns the text of
    the first candidate under both [content] and [results] with status
    200; when that candidate has no such text, the lookup's exception
    becomes a status 500 answer, not the fixed no-results message. *)
Theorem web_search_relays_first_text
    (req : request) (w : world time) (c : upstream_call)
    (r : http_response) (res : json) :
  calls (snd (web_search exn_str py_str E req w)) = calls w ++ [c] ->
  upstream E c = PostReturns r ->
  ok r = true ->
  response_json r = Ok res ->
  has_candidates res = Ok true ->
  (forall text,
     first_text res = Ok text ->
     fst (web_search exn_str py_str E req w)
     = Json (JObj [(py "content", text); (py "results", text)]) 200)
  /\ (forall e,
        first_text res = Raise e ->
        fst (web_search exn_str py_str E req w)
        = Json (JObj [(py "error", JStr (exn_str e))]) 500).
Proof.
  intros Hc Hup Hok Hj Hcands.
  destruct (answer_after_call time json_loads exn_str py_str E
              ApiWebSearch req w c Hc) as (is_edit & H).
  cbn [handle] in H; rewrite H, Hup; unfold after_call; rewrite Hok.
  unfold web_search_result; rewrite Hj; cbn [rbind].
  rewrite Hcands; cbn [rbind].
  split; [intros text -> | intros e ->]; reflexivity.
Qed.

End LastWins.

(** * Further examples *)

(** The block of the fenced prose holds no fence. *)
Lemma fence_extract_clean_witness :
  fence_extract fenced_prose = Ok ([LF] ++ py "not json" ++ [LF])
  /\ contains fence ([LF] ++ py "not json" ++ [LF]) = false.
Proof.
  split; [reflexivity|].
  apply (fence_extract_clean fenced_prose ([LF] ++ py "not json" ++ [LF])
           eq_refl).
Defined.

(** The one delta of the example stream is not empty. *)
Lemma chat_stream_deltas_spoken_witness :
  In (delta_event (JStr (py "Hi")))
     (fst (generate example_loads example_decode example_exn_str
             (example_env (py "key") provider_streams)
             [] chat_system_prompt example_world))
  /\ truthy (JStr (py "Hi")) = true.
Proof.
  assert (Hin : In (delta_event (JStr (py "Hi")))
                  (fst (generate example_loads example_decode example_exn_str
                          (example_env (py "key") provider_streams)
                          [] chat_system_prompt example_world))).
  { left; reflexivity. }
  split; [exact Hin|].
  exact (chat_stream_deltas_spoken Z example_loads example_decode
           example_exn_str (example_env (py "key") provider_streams)
           [] chat_system_prompt example_world (JStr (py "Hi")) Hin).
Defined.

(** A failed web search still records the request time. *)
Lemma post_touches_liveness_witness :
  last_request_time
    (snd (handle example_loads example_exn_str example_py_str
            (example_env (py "key") provider_unavailable)
            ApiWebSearch paris_query busy_world))
  = example_clock 5.
Proof.
  destruct (post_touches_liveness Z example_loads example_exn_str
              example_py_str (example_env (py "key") provider_unavailable)
              ApiWebSearch paris_query busy_world) as (Hpost & _).
  destruct (Hpost eq_refl) as (Htime & _).
  exact Htime.
Defined.

(** An unreadable body at the web search: 500, and nothing is called. *)
Lemma malformed_body_is_server_error_witness :
  handle example_loads example_exn_str example_py_str
    (example_env (py "key") provider_unavailable)
    ApiWebSearch post_unreadable example_world
  = (Json (JObj [(py "error", JStr (py "400 Bad Request"))]) 500,
     warm_up (example_env (py "key") provider_unavailable) example_world).
Proof.
  destruct (malformed_body_is_server_error Z example_loads example_exn_str
              example_py_str (example_env (py "key") provider_unavailable)
              ApiWebSearch post_unreadable example_world)
    as (Hraise & _).
  - reflexivity.
  - discriminate.
  - exact (Hraise _ eq_refl).
Defined.

(** Web search when the provider is unavailable. *)
Lemma buffered_upstream_failure_witness :
  fst (handle example_loads example_exn_str example_py_str
         (example_env (py "key") provider_unavailable)
         ApiWebSearch paris_query example_world)
  = Json (JObj [(py "error", JStr (py "Search failed"))]) 500.
Proof.
  destruct (buffered_upstream_failure Z example_loads example_exn_str
              example_py_str (example_env (py "key") provider_unavailable)
              ApiWebSearch paris_query example_world
              (paris_search (py "key")) eq_refl)
    as (_ & Hstatus).
  exact (Hstatus _ eq_refl eq_refl).
Defined.

(** Map search when the provider has nothing to say. *)
Lemma no_candidates_is_failure_witness :
  fst (handle example_loads example_exn_str example_py_str
         (example_env (py "key") provider_empty)
         ApiMapSearch paris_query example_world)
  = Json (JObj [(py "error", JStr (py "No location results"))]) 500.
Proof.
  apply (no_candidates_is_failure Z example_loads example_exn_str
           example_py_str (example_env (py "key") provider_empty)
           ApiMapSearch paris_query example_world
           (paris_map (py "key"))
           {| ok := true;
              response_json := Ok (JObj []);
              iter_lines := [];
              iter_raises := None |}
           []); try reflexivity.
  left; reflexivity.
Defined.

(** A missing prompt is the one way to status 400. *)
Lemma client_error_only_for_prompt_witness :
  status_of
    (fst (handle example_loads example_exn_str example_py_str
            (example_env (py "key") provider_unavailable)
            ApiGenerateImage
            (post_json (JObj [(py "prompt", JNull)])) example_world))
  = 400%Z.
Proof.
  apply (client_error_only_for_prompt Z example_loads example_exn_str
           example_py_str (example_env (py "key") provider_unavailable)
           ApiGenerateImage
           (post_json (JObj [(py "prompt", JNull)])) example_world).
  split; [reflexivity|]; split; [reflexivity|]; split; [discriminate|].
  exists [(py "prompt", JNull)]; split; reflexivity.
Defined.

(** A returned PNG goes back in as the image to edit. *)
Lemma generated_image_round_trip_witness :
  exists url,
    scan_part example_py_str (JNull, JStr (py "caption"))
      (JObj [(py "inlineData",
              JObj [(py "mimeType", JStr (py "image/png"));
                    (py "data", JStr (py "iVBORw0KGgo="))])])
    = Ok (JStr url, JStr (py "caption"))
    /\ extract_image (JStr url)
       = Ok (Some (inline_data (py "image/png") (py "iVBORw0KGgo="))).
Proof.
  apply (generated_image_round_trip example_py_str
           (JNull, JStr (py "caption"))
           [(py "inlineData",
             JObj [(py "mimeType", JStr (py "image/png"));
                   (py "data", JStr (py "iVBORw0KGgo="))])]
           [(py "mimeType", JStr (py "image/png"));
            (py "data", JStr (py "iVBORw0KGgo="))]
           (py "image/png") (py "iVBORw0KGgo="));
    try reflexivity; try discriminate.
  - exact not_in_image_png.
  - exact not_in_payload.
Defined.

(** A candidate with one empty part: status 200, no image, the fixed
    caption. *)
Lemma image_answer_without_image_witness :
  image_result example_py_str false
    {| ok := true;
       response_json :=
         Ok (JObj [(py "candidates",
           JArr [JObj [(py "content",
             JObj [(py "parts", JArr [JObj []])])]])]);
       iter_lines := [];
       iter_raises := None |}
  = Ok (Json (JObj [(py "imageUrl", JNull);
                    (py "text", JStr (py "Here's your generated image!"))])
             200).
Proof.
  destruct (image_answer_without_image example_py_str false
              {| ok := true;
                 response_json :=
                   Ok (JObj [(py "candidates",
                     JArr [JObj [(py "content",
                       JObj [(py "parts", JArr [JObj []])])]])]);
                 iter_lines := [];
                 iter_raises := None |}
              [(py "candidates",
                JArr [JObj [(py "content",
                  JObj [(py "parts", JArr [JObj []])])]])]
              [(py "content", JObj [(py "parts", JArr [JObj []])])]
              [(py "parts", JArr [JObj []])]
              [] [JObj []])
    as (t & Hres & Ht); [reflexivity .. | | ].
  - repeat constructor; exists []; split; reflexivity.
  - rewrite Hres, Ht; [reflexivity|].
    repeat constructor; exists []; split; reflexivity.
Defined.

(** Prose in a fence is still an answer. *)
Lemma map_search_answers_any_text_witness :
  exists body,
    fst (map_search example_loads example_exn_str example_py_str
           (example_env (py "key") (provider_says fenced_prose))
           paris_query example_world)
    = Json (JObj body) 200
    /\ lookup (py "content") body <> None.
Proof.
  apply (map_search_answers_any_text Z example_loads example_exn_str
           example_py_str
           (example_env (py "key") (provider_says fenced_prose))
           paris_query example_world (paris_map (py "key"))
           {| ok := true;
              response_json :=
                Ok (JObj [(py "candidates",
                  JArr [JObj [(py "content",
                    JObj [(py "parts",
                      JArr [JObj [(py "text", JStr fenced_prose)]])])]])]);
              iter_lines := [];
              iter_raises := None |}
           (JObj [(py "candidates",
              JArr [JObj [(py "content",
                JObj [(py "parts",
                  JArr [JObj [(py "text", JStr fenced_prose)]])])]])])
           (JStr fenced_prose)); reflexivity.
Defined.

(** A number as [imageData]. *)
Lemma image_data_must_be_a_string_witness :
  fst (generate_image example_exn_str example_py_str
         (example_env (py "key") provider_unavailable)
         (post_json (JObj [(py "prompt", JStr (py "a red circle"));
                           (py "imageData", JInt 5)]))
         example_world)
  = Json (JObj [(py "error", JStr (py "error"))]) 500.
Proof.
  rewrite (image_data_must_be_a_string Z example_exn_str example_py_str
             (example_env (py "key") provider_unavailable)
             (post_json (JObj [(py "prompt", JStr (py "a red circle"));
                               (py "imageData", JInt 5)]))
             example_world
             [(py "prompt", JStr (py "a red circle"));
              (py "imageData", JInt 5)]
             (JInt 5));
    try reflexivity; [discriminate | intros s; discriminate].
Defined.

(** A message that is a bare string. *)
Lemma chat_rejects_malformed_message_witness :
  exists e,
    chat example_exn_str (example_env (py "key") provider_streams)
      (post_json (JObj [(py "messages",
                         JArr [JObj example_user_turn; JStr (py "hello")])]))
      example_world
    = (Json (JObj [(py "error", JStr (example_exn_str e))]) 500,
       warm_up (example_env (py "key") provider_streams) example_world).
Proof.
  apply (chat_rejects_malformed_message Z example_exn_str
           (example_env (py "key") provider_streams)
           (post_json (JObj [(py "messages",
                              JArr [JObj example_user_turn;
                                    JStr (py "hello")])]))
           example_world
           [(py "messages",
             JArr [JObj example_user_turn; JStr (py "hello")])]
           [JObj example_user_turn; JStr (py "hello")]
           (JStr (py "hello"))); try reflexivity.
  - discriminate.
  - right; left; reflexivity.
  - left; intros mk; discriminate.
Defined.

(** An empty object in place of the message list gives no turn. *)
Lemma contents_need_a_list_witness :
  gemini_contents (JObj []) JNull = Ok []
  /\ ((exists msgs, JObj [] = JArr msgs)
      \/ ([] = @nil json /\ (JObj [] = JStr [] \/ JObj [] = JObj []))).
Proof.
  split; [reflexivity|].
  exact (contents_need_a_list (JObj []) JNull [] eq_refl).
Defined.

(** The example conversation in build mode. *)
Lemma chat_then_stream_witness :
  exists contents,
    chat example_exn_str (example_env (py "key") provider_streams)
      (post_json (JObj [(py "messages", JArr example_messages);
                        (py "mode", JStr (py "code"))]))
      example_world
    = (EventStream contents (chat_system_prompt ++ build_mode_prompt),
       warm_up (example_env (py "key") provider_streams) example_world).
Proof.
  pose (c := match gemini_contents (JArr example_messages) JNull with
             | Ok c => c
             | Raise _ => []
             end).
  exists c.
  destruct (chat_then_stream Z example_loads example_decode example_exn_str
              (example_env (py "key") provider_streams)
              (post_json (JObj [(py "messages", JArr example_messages);
                                (py "mode", JStr (py "code"))]))
              example_world
              [(py "messages", JArr example_messages);
               (py "mode", JStr (py "code"))]
              c)
    as (sp & Hchat & Hcode & _);
    [reflexivity | discriminate | reflexivity .. | ].
  rewrite Hchat, (Hcode eq_refl); reflexivity.
Defined.

(** Two images in one answer. *)
Lemma last_image_wins_witness :
  scan_parts example_py_str (JNull, JStr (py "caption"))
    ([JObj [(py "inlineData",
             JObj [(py "mimeType", JStr (py "image/jpeg"));
                   (py "data", JStr (py "AAAA"))])]]
     ++ [JObj [(py "inlineData",
                JObj [(py "mimeType", JStr (py "image/png"));
                      (py "data", JStr (py "iVBORw0KGgo="))])]])
  = Ok (JStr (py "data:image/png;base64,iVBORw0KGgo="),
        JStr (py "caption")).
Proof.
  apply (last_image_wins example_py_str
           (JNull, JStr (py "caption"))
           (JStr (py "data:image/jpeg;base64,AAAA"), JStr (py "caption"))
           [JObj [(py "inlineData",
                   JObj [(py "mimeType", JStr (py "image/jpeg"));
                         (py "data", JStr (py "AAAA"))])]]
           [(py "inlineData",
             JObj [(py "mimeType", JStr (py "image/png"));
                   (py "data", JStr (py "iVBORw0KGgo="))])]
           [(py "mimeType", JStr (py "image/png"));
            (py "data", JStr (py "iVBORw0KGgo="))]
           (py "image/png") (py "iVBORw0KGgo=")); reflexivity.
Defined.

(** A blank line after the first chunk. *)
Lemma silent_lines_are_harmless_witness :
  relay_lines example_loads example_decode
    ([example_bytes
        "data: {'candidates': [{'content': {'parts': [{'text': 'Hi'}]}}]}"]
     ++ example_bytes "" :: [example_bytes ": keep-alive"])
  = relay_lines example_loads example_decode
      ([example_bytes
          "data: {'candidates': [{'content': {'parts': [{'text': 'Hi'}]}}]}"]
       ++ [example_bytes ": keep-alive"]).
Proof.
  apply (silent_lines_are_harmless example_loads example_decode).
  reflexivity.
Defined.

(** The first candidate of a search answer. *)
Lemma web_search_relays_first_text_witness :
  fst (web_search example_exn_str example_py_str
         (example_env (py "key") (provider_says (py "Paris is in France.")))
         paris_query example_world)
  = Json (JObj [(py "content", JStr (py "Paris is in France."));
                (py "results", JStr (py "Paris is in France."))]) 200.
Proof.
  destruct (web_search_relays_first_text Z example_loads example_exn_str
              example_py_str
              (example_env (py "key") (provider_says (py "Paris is in France.")))
              paris_query example_world (paris_search (py "key"))
              {| ok := true;
                 response_json :=
                   Ok (JObj [(py "candidates",
                     JArr [JObj [(py "content",
                       JObj [(py "parts",
                         JArr [JObj [(py "text",
                                      JStr (py "Paris is in France."))]])])]])]);
                 iter_lines := [];
                 iter_raises := None |}
              (JObj [(py "candidates",
                 JArr [JObj [(py "content",
                   JObj [(py "parts",
                     JArr [JObj [(py "text",
                                  JStr (py "Paris is in France."))]])])]])]))
    as (Htext & _); [reflexivity .. | ].
  exact (Htext _ eq_refl).
Defined.
